(** * transcript-helper: the transcription job run of [AudioProcessor.vue]

    A shallow embedding of [processAudio] (src/components/AudioProcessor.vue,
    lines 91-242) and of the helpers it calls, followed by the properties of
    the job state machine: upload, submit, poll, format.

    Modelling choices.
    - The reactive refs the function only reads ([apiKey], [audioFile],
      [outputType], [characterLength]) form the record [inputs]; the refs it
      writes ([isLoading], [errorMessage], [successMessage],
      [processingProgress], [processingStage]) form the record [display],
      which is threaded through the run.
    - The controls that write the read refs stay enabled during a run, and
      the function reads them again after its awaits.  [Live.processAudio]
      is the function with these later reads, each finding the refs as the
      user has left them by then; [processAudio] is the run during which
      the user edits nothing, and the two agree on such runs
      ([live_still]).  What the handlers write to [errorMessage] during a
      run is not modelled.
    - Every outbound call and every other side effect is an [effect]; a run
      produces the chronological list of the effects it issued.
    - The remote service is a script of responses ([network]).  The list of
      polling responses is finite: a run that has consumed all of them and
      would poll again has issued its next status query and is [Suspended]
      on it.  A service that answers "processing" for ever is thus described
      by its finite prefixes, all of which leave the run suspended.
    - JavaScript numbers are modelled by [Z]: every number of the run is an
      integer, and [pollCount] stays exact in a double for 2^53 polls.
      JavaScript strings and the values read from the JSON bodies are
      modelled by [string]. *)

From Stdlib Require Import ZArith List String Ascii Bool Lia.
From Stdlib Require Import DecimalString.
Import ListNotations.

Local Open Scope string_scope.
Local Open Scope Z_scope.
Local Open Scope list_scope.

(** ** Data *)

(** A browser [File]: display name, declared MIME type and the bytes. *)
Record File : Type := mkFile {
  name : string;
  type : string;
  bytes : list Byte.byte
}.

Definition size (f : File) : Z := Z.of_nat (List.length (bytes f)).

(** What the [characterLength] ref holds.  It starts as the number 32
    (line 8); v-model on the number input (line 565) then leaves in it the
    number typed, or the raw text when that parses as no number, the empty
    string for an emptied field.  The script only ever renders the ref into
    the caption URL (line 206): a value that is no whole number is kept as
    the text it renders to. *)
Inductive caption_length : Type :=
| Whole (n : Z)
| Rendered (text : string).

Coercion Whole : Z >-> caption_length.

(** The refs read by [processAudio] (lines 5-8). *)
Record inputs : Type := mkInputs {
  apiKey : string;
  audioFile : option File;            (* ref<File | null> *)
  outputType : string;
  characterLength : caption_length
}.

(** The refs written by [processAudio] (lines 9-13). *)
Record display : Type := mkDisplay {
  isLoading : bool;
  errorMessage : string;
  successMessage : string;
  processingProgress : Z;
  processingStage : string
}.

(** The component's refs when it is created. *)
Definition initial_display : display :=
  mkDisplay false "" "" 0 "".

Definition API_KEY_STORAGE_KEY : string := "assemblyai_api_key".

(** What a run does to the world outside the component. *)
Inductive effect : Type :=
| StorageSet (key value : string)
    (* localStorage.setItem(key, value) *)
| Upload (authorization : string) (body : File)
    (* POST https://api.assemblyai.com/v2/upload, octet-stream body *)
| Transcribe (authorization audio_url language_code speech_model : string)
    (* POST https://api.assemblyai.com/v2/transcript, JSON body *)
| Sleep (ms : Z)
    (* await new Promise(resolve => setTimeout(resolve, ms)) *)
| Status (authorization transcriptId : string)
    (* GET https://api.assemblyai.com/v2/transcript/${transcriptId} *)
| Srt (authorization transcriptId : string)
      (chars_per_caption : caption_length)
    (* GET .../v2/transcript/${transcriptId}/srt?chars_per_caption=${n} *)
| Download (content filename : string).
    (* downloadFile(content, filename) *)

(** A value that was thrown: an [Error] with its message, or anything else. *)
Inductive thrown : Type :=
| ErrorObj (message : string)
| NotAnError.

Module Json.

(** Body of the upload response. *)
Record upload : Type := mkUpload { upload_url : string }.

(** The transcript object returned by the submit and status calls. *)
Record transcript : Type := mkTranscript {
  id : string;
  status : string;
  text : string
}.

(** [await response.json()]: the parsed body, or the rejection of the parse. *)
Inductive parsed (A : Type) : Type :=
| Value (v : A)
| Malformed (e : thrown).

Arguments Value {A} v.
Arguments Malformed {A} e.

End Json.

(** How the promise of a [fetch] settles: a response with its [ok] flag and
    body, or a rejection (the request never got an HTTP answer). *)
Inductive settled (B : Type) : Type :=
| Response (ok : bool) (body : B)
| Rejected (e : thrown).

Arguments Response {B} ok body.
Arguments Rejected {B} e.

(** The responses to the successive status queries. *)
Abbreviation responses := (list (settled (Json.parsed Json.transcript))).

(** The script of the remote service for one run. *)
Record network : Type := mkNetwork {
  uploadResponse : settled (Json.parsed Json.upload);
  transcriptResponse : settled (Json.parsed Json.transcript);
  pollingResponses : responses;
  srtResponse : settled string
}.

(** ** The async computations *)

(** How a piece of the run ends: normally with a value, by a [throw], or
    suspended on an [await] that has not settled. *)
Inductive completion (A : Type) : Type :=
| Normal (a : A)
| Throw (e : thrown)
| Suspended.

Arguments Normal {A} a.
Arguments Throw {A} e.
Arguments Suspended {A}.

(** A computation reads and writes the display refs and issues effects. *)
Definition Async (A : Type) : Type :=
  display -> completion A * display * list effect.

Definition ret {A} (a : A) : Async A :=
  fun d => (Normal a, d, []).

Definition bind {A B} (m : Async A) (k : A -> Async B) : Async B :=
  fun d =>
    match m d with
    | (Normal a, d1, t1) =>
        let '(c, d2, t2) := k a d1 in (c, d2, t1 ++ t2)
    | (Throw e, d1, t1) => (Throw e, d1, t1)
    | (Suspended, d1, t1) => (Suspended, d1, t1)
    end.

Notation "x <- m ;; k" := (bind m (fun x => k))
  (at level 61, m at next level, right associativity).
Notation "m ;; k" := (bind m (fun _ => k))
  (at level 61, right associativity).

Definition throw {A} (e : thrown) : Async A :=
  fun d => (Throw e, d, []).

Definition suspend {A} : Async A :=
  fun d => (Suspended, d, []).

Definition perform (ev : effect) : Async unit :=
  fun d => (Normal tt, d, [ev]).

Definition modify (f : display -> display) : Async unit :=
  fun d => (Normal tt, f d, []).

Definition read {A} (f : display -> A) : Async A :=
  fun d => (Normal (f d), d, []).

(** [try { body } catch (error) { handler error } finally { fin }].  A run
    suspended inside [body] has reached neither the handler nor [fin]. *)
Definition try_catch_finally (body : Async unit)
    (handler : thrown -> Async unit) (fin : Async unit) : Async unit :=
  fun d =>
    match body d with
    | (Normal _, d1, t1) =>
        let '(c, d2, t2) := fin d1 in (c, d2, t1 ++ t2)
    | (Throw e, d1, t1) =>
        match handler e d1 with
        | (Normal _, d2, t2) =>
            let '(c, d3, t3) := fin d2 in (c, d3, t1 ++ t2 ++ t3)
        | (Throw e', d2, t2) =>
            match fin d2 with
            | (Normal _, d3, t3) => (Throw e', d3, t1 ++ t2 ++ t3)
            | (c, d3, t3) => (c, d3, t1 ++ t2 ++ t3)
            end
        | (Suspended, d2, t2) => (Suspended, d2, t1 ++ t2)
        end
    | (Suspended, d1, t1) => (Suspended, d1, t1)
    end.

(** [await fetch(...)]: the request is issued, then the run waits for the
    promise to settle; [None] is a promise that has not settled. *)
Definition fetch {B} (request : effect) (r : option (settled B))
  : Async (bool * B) :=
  perform request ;;
  match r with
  | None => suspend
  | Some (Response ok body) => ret (ok, body)
  | Some (Rejected e) => throw e
  end.

(** [await response.json()]. *)
Definition json {A} (body : Json.parsed A) : Async A :=
  match body with
  | Json.Value v => ret v
  | Json.Malformed e => throw e
  end.

(** Assignments to the refs. *)
Definition set_isLoading (b : bool) (d : display) : display :=
  mkDisplay b (errorMessage d) (successMessage d)
            (processingProgress d) (processingStage d).

Definition set_errorMessage (s : string) (d : display) : display :=
  mkDisplay (isLoading d) s (successMessage d)
            (processingProgress d) (processingStage d).

Definition set_successMessage (s : string) (d : display) : display :=
  mkDisplay (isLoading d) (errorMessage d) s
            (processingProgress d) (processingStage d).

Definition set_processingProgress (n : Z) (d : display) : display :=
  mkDisplay (isLoading d) (errorMessage d) (successMessage d)
            n (processingStage d).

Definition set_processingStage (s : string) (d : display) : display :=
  mkDisplay (isLoading d) (errorMessage d) (successMessage d)
            (processingProgress d) s.

(** ** JavaScript primitives used by the run *)

(** [!s] on a string: only the empty string is falsy. *)
Definition falsy (s : string) : bool :=
  match s with
  | EmptyString => true
  | String _ _ => false
  end.

(** [`${n}`] for an integer-valued number. *)
Definition number_to_string (n : Z) : string :=
  NilZero.string_of_int (Z.to_int n).

(** [s.split(sep)] for a one-character separator: the segments between the
    occurrences of [sep], always at least one. *)
Fixpoint split (sep : ascii) (s : string) : list string :=
  match s with
  | EmptyString => [EmptyString]
  | String c rest =>
      if Ascii.eqb c sep then EmptyString :: split sep rest
      else
        match split sep rest with
        | [] => [String c EmptyString]
        | seg :: segs => String c seg :: segs
        end
  end.

(** [a[0]] read as a string inside a template literal. *)
Definition first_segment (a : list string) : string :=
  match a with
  | [] => "undefined"
  | seg :: _ => seg
  end.

(** [audioFile.value.name.split(".")[0]] (lines 220 and 224). *)
Definition stem (display_name : string) : string :=
  first_segment (split "."%char display_name).

(** [Math.min(a, b)]. *)
Definition Math_min (a b : Z) : Z := Z.min a b.

(** ** The program *)

(** [saveApiKey] (lines 28-30). *)
Definition saveApiKey (i : inputs) : Async unit :=
  perform (StorageSet API_KEY_STORAGE_KEY (apiKey i)).

(** [downloadFile] (lines 244-254): the browser is asked to save [content]
    under [filename]. *)
Definition downloadFile (content filename : string) : Async unit :=
  perform (Download content filename).

(** Step 1 (lines 109-127): upload the file, return [audioUrl]. *)
Definition upload_stage (i : inputs) (file : File) (net : network)
  : Async string :=
  modify (set_processingProgress 10) ;;
  modify (set_processingStage "Uploading audio file...") ;;
  uploadResponse <-
    fetch (Upload (apiKey i) file) (Some (uploadResponse net)) ;;
  if negb (fst uploadResponse)
  then throw (ErrorObj "Failed to upload audio file")
  else
    (uploadResult <- json (snd uploadResponse) ;;
     ret (Json.upload_url uploadResult)).

(** Step 2 (lines 129-154): submit the request, return [transcriptId]. *)
Definition submit_stage (i : inputs) (audioUrl : string) (net : network)
  : Async string :=
  modify (set_processingProgress 30) ;;
  modify (set_processingStage "Submitting transcription request...") ;;
  transcriptResponse <-
    fetch (Transcribe (apiKey i) audioUrl "en_us" "slam-1")
          (Some (transcriptResponse net)) ;;
  if negb (fst transcriptResponse)
  then throw (ErrorObj "Failed to submit transcription request")
  else
    (transcriptResult <- json (snd transcriptResponse) ;;
     ret (Json.id transcriptResult)).

(** The variables of the polling loop (lines 160-162). *)
Record locals : Type := mkLocals {
  result : option Json.transcript;     (* let result; *)
  status : string;
  pollCount : Z
}.

(** The test of the [while] (line 164). *)
Definition loop_condition (l : locals) : bool :=
  String.eqb (status l) "processing" || String.eqb (status l) "queued".

(** The progress update that ends a turn of the loop (lines 186-189). *)
Definition update_progress (status : string) (pollCount : Z) : Async unit :=
  if String.eqb status "processing" then
    modify (set_processingProgress (Math_min 80 (50 + pollCount * 2))) ;;
    p <- read processingProgress ;;
    modify (set_processingStage
              ("Processing audio... (" ++ number_to_string p ++ "%)")%string)
  else ret tt.

(** One turn of the loop body (lines 165-189).  [r] is how the status query
    of this turn settles, [None] when it has not settled. *)
Definition poll_iteration (i : inputs) (transcriptId : string)
    (r : option (settled (Json.parsed Json.transcript))) (l : locals)
  : Async locals :=
  perform (Sleep 1000) ;;
  pollingResponse <- fetch (Status (apiKey i) transcriptId) r ;;
  if negb (fst pollingResponse)
  then throw (ErrorObj "Failed to check transcription status")
  else
    (result' <- json (snd pollingResponse) ;;
     let status' := Json.status result' in
     let pollCount' := pollCount l + 1 in
     update_progress status' pollCount' ;;
     ret (mkLocals (Some result') status' pollCount')).

(** The [while] loop (lines 164-190), by recursion on the responses still to
    come, in a run during which the user edits nothing (see [Live.poll_loop]
    for the loop that finds the key edited). *)
Fixpoint poll_loop (i : inputs) (transcriptId : string)
    (polls : list (settled (Json.parsed Json.transcript))) (l : locals)
    {struct polls} : Async locals :=
  if loop_condition l then
    match polls with
    | [] => poll_iteration i transcriptId None l
    | r :: polls' =>
        l' <- poll_iteration i transcriptId (Some r) l ;;
        poll_loop i transcriptId polls' l'
    end
  else ret l.

(** Step 3 (lines 156-190): poll until the status leaves
    "processing"/"queued". *)
Definition poll_stage (i : inputs) (transcriptId : string)
    (polls : list (settled (Json.parsed Json.transcript))) : Async locals :=
  modify (set_processingProgress 50) ;;
  modify (set_processingStage "Processing audio...") ;;
  poll_loop i transcriptId polls (mkLocals None "processing" 0).

(** The two branches that produce [output] and [filename]
    (lines 200-225), in a run during which the user edits nothing: the refs
    read again here are then those of the start, [file] among them (see
    [Live.produce_output] for the branches with the refs as they are found).
    Reading [result.text] of an unassigned [result] would throw a TypeError;
    the loop always assigns it first. *)
Definition produce_output (i : inputs) (file : File) (transcriptId : string)
    (net : network) (l : locals) : Async (string * string) :=
  if String.eqb (outputType i) "subtitles" then
    modify (set_processingStage "Generating subtitles...") ;;
    modify (set_processingProgress 90) ;;
    srtResponse <-
      fetch (Srt (apiKey i) transcriptId (characterLength i))
            (Some (srtResponse net)) ;;
    if negb (fst srtResponse)
    then throw (ErrorObj "Failed to get SRT file")
    else ret (snd srtResponse, (stem (name file) ++ ".srt")%string)
  else
    match result l with
    | None =>
        throw (ErrorObj "Cannot read properties of undefined (reading 'text')")
    | Some res => ret (Json.text res, (stem (name file) ++ ".txt")%string)
    end.

(** Step 4 (lines 192-235). *)
Definition format_stage (i : inputs) (file : File) (transcriptId : string)
    (net : network) (l : locals) : Async unit :=
  if String.eqb (status l) "completed" then
    modify (set_processingProgress 90) ;;
    modify (set_processingStage "Generating output file...") ;;
    out <- produce_output i file transcriptId net l ;;
    modify (set_processingProgress 100) ;;
    modify (set_processingStage "Complete!") ;;
    downloadFile (fst out) (snd out) ;;
    modify (set_successMessage
              ("Your " ++ outputType i ++
               " has been successfully processed and downloaded!")%string)
  else
    throw (ErrorObj ("Transcription failed with status: " ++ status l)%string).

(** The body of the [try] (lines 106-235). *)
Definition job (i : inputs) (file : File) (net : network) : Async unit :=
  modify (set_isLoading true) ;;
  modify (set_errorMessage "") ;;
  modify (set_successMessage "") ;;
  audioUrl <- upload_stage i file net ;;
  transcriptId <- submit_stage i audioUrl net ;;
  l <- poll_stage i transcriptId (pollingResponses net) ;;
  format_stage i file transcriptId net l.

(** The [catch] clause (lines 236-238). *)
Definition on_error (error : thrown) : Async unit :=
  modify (set_errorMessage
            match error with
            | ErrorObj message => message
            | NotAnError => "An unknown error occurred"
            end).

(** [processAudio] (lines 91-242), in a run during which the user edits
    nothing: [Live.processAudio i (still i)], see [live_still]. *)
Definition processAudio (i : inputs) (net : network) : Async unit :=
  if falsy (apiKey i) then
    modify (set_errorMessage "Please enter your AssemblyAI API key")
  else
    saveApiKey i ;;
    match audioFile i with
    | None => modify (set_errorMessage "Please select an audio file")
    | Some file =>
        try_catch_finally (job i file net) on_error
                          (modify (set_isLoading false))
    end.

(** ** The program when the refs are edited during a run *)

(** The moments at which a run reads the refs again, after an await. *)
Inductive moment : Type :=
| AtSubmit
    (* line 138: after the upload call and the reading of its body *)
| AtPoll (k : nat)
    (* line 172: turn k of the loop, counted from 0, after its wait *)
| AtFormat
    (* lines 200, 206, 210, 223-224, and 232 for a transcript: after the
       last status query and the reading of its body *)
| AtCaption.
    (* lines 220 and 232 for subtitles: after the caption call and the
       reading of its body *)

(** [`${characterLength.value}`] in the caption URL (line 206). *)
Definition rendered (c : caption_length) : string :=
  match c with
  | Whole n => number_to_string n
  | Rendered text => text
  end.

(** The TypeError of [audioFile.value.name] when the ref holds null, with
    the message V8 gives it. *)
Definition null_name_error : thrown :=
  ErrorObj "Cannot read properties of null (reading 'name')".

Module Live.

(** The [while] loop (lines 164-190); [seen (AtPoll k)] is the refs as turn
    [k] finds them when it builds its status query. *)
Fixpoint poll_loop (seen : moment -> inputs) (k : nat)
    (transcriptId : string) (polls : responses) (l : locals)
    {struct polls} : Async locals :=
  if loop_condition l then
    match polls with
    | [] => poll_iteration (seen (AtPoll k)) transcriptId None l
    | r :: polls' =>
        l' <- poll_iteration (seen (AtPoll k)) transcriptId (Some r) l ;;
        poll_loop seen (S k) transcriptId polls' l'
    end
  else ret l.

(** Step 3 (lines 156-190). *)
Definition poll_stage (seen : moment -> inputs) (transcriptId : string)
    (polls : responses) : Async locals :=
  modify (set_processingProgress 50) ;;
  modify (set_processingStage "Processing audio...") ;;
  poll_loop seen 0 transcriptId polls (mkLocals None "processing" 0).

(** [audioFile.value.name.split(".")[0]] followed by a suffix (lines 220
    and 224), on the file the ref holds at that moment. *)
Definition filename (selected : option File) (suffix : string)
  : Async string :=
  match selected with
  | None => throw null_name_error
  | Some file => ret (stem (name file) ++ suffix)%string
  end.

(** The two branches that produce [output] and [filename]
    (lines 200-225). *)
Definition produce_output (seen : moment -> inputs) (transcriptId : string)
    (net : network) (l : locals) : Async (string * string) :=
  if String.eqb (outputType (seen AtFormat)) "subtitles" then
    modify (set_processingStage "Generating subtitles...") ;;
    modify (set_processingProgress 90) ;;
    srtResponse <-
      fetch (Srt (apiKey (seen AtFormat)) transcriptId
                 (characterLength (seen AtFormat)))
            (Some (srtResponse net)) ;;
    if negb (fst srtResponse)
    then throw (ErrorObj "Failed to get SRT file")
    else
      (filename <- filename (audioFile (seen AtCaption)) ".srt" ;;
       ret (snd srtResponse, filename))
  else
    match result l with
    | None =>
        throw (ErrorObj "Cannot read properties of undefined (reading 'text')")
    | Some res =>
        filename <- filename (audioFile (seen AtFormat)) ".txt" ;;
        ret (Json.text res, filename)
    end.

(** The moment of the reads of lines 220-232: after the caption call when
    line 200 found "subtitles", with line 200 otherwise. *)
Definition at_download (seen : moment -> inputs) : moment :=
  if String.eqb (outputType (seen AtFormat)) "subtitles" then AtCaption
  else AtFormat.

(** Step 4 (lines 192-235). *)
Definition format_stage (seen : moment -> inputs) (transcriptId : string)
    (net : network) (l : locals) : Async unit :=
  if String.eqb (status l) "completed" then
    modify (set_processingProgress 90) ;;
    modify (set_processingStage "Generating output file...") ;;
    out <- produce_output seen transcriptId net l ;;
    modify (set_processingProgress 100) ;;
    modify (set_processingStage "Complete!") ;;
    downloadFile (fst out) (snd out) ;;
    modify (set_successMessage
              ("Your " ++ outputType (seen (at_download seen)) ++
               " has been successfully processed and downloaded!")%string)
  else
    throw (ErrorObj ("Transcription failed with status: " ++ status l)%string).

(** The body of the [try] (lines 106-235).  [i] is the refs at the start,
    read before the first await (lines 116-119). *)
Definition job (i : inputs) (file : File) (seen : moment -> inputs)
    (net : network) : Async unit :=
  modify (set_isLoading true) ;;
  modify (set_errorMessage "") ;;
  modify (set_successMessage "") ;;
  audioUrl <- upload_stage i file net ;;
  transcriptId <- submit_stage (seen AtSubmit) audioUrl net ;;
  l <- poll_stage seen transcriptId (pollingResponses net) ;;
  format_stage seen transcriptId net l.

(** [processAudio] (lines 91-242). *)
Definition processAudio (i : inputs) (seen : moment -> inputs)
    (net : network) : Async unit :=
  if falsy (apiKey i) then
    modify (set_errorMessage "Please enter your AssemblyAI API key")
  else
    saveApiKey i ;;
    match audioFile i with
    | None => modify (set_errorMessage "Please select an audio file")
    | Some file =>
        try_catch_finally (job i file seen net) on_error
                          (modify (set_isLoading false))
    end.

End Live.

(** The refs of a run during which the user edits nothing. *)
Definition still (i : inputs) : moment -> inputs := fun _ => i.

(** ** Reading the result of a computation *)

Definition outcome {A} (x : completion A * display * list effect)
  : completion A := fst (fst x).

Definition shown {A} (x : completion A * display * list effect)
  : display := snd (fst x).

Definition issued {A} (x : completion A * display * list effect)
  : list effect := snd x.

(** The run has come to an end: it is not waiting on anything. *)
Definition finished {A} (c : completion A) : bool :=
  match c with
  | Suspended => false
  | _ => true
  end.

(** ** Vocabulary of the properties *)

(** The status values on which the loop goes round again. *)
Definition in_progress (s : string) : bool :=
  String.eqb s "processing" || String.eqb s "queued".

(** A poll response after which the loop polls again: a successful response
    whose body parses and reports "processing" or "queued". *)
Definition keeps_polling (r : settled (Json.parsed Json.transcript)) : bool :=
  match r with
  | Response true (Json.Value v) => in_progress (Json.status v)
  | _ => false
  end.

(** [n] turns of the loop, as seen from outside: wait, then query. *)
Fixpoint polling_trace (key transcriptId : string) (n : nat) : list effect :=
  match n with
  | O => []
  | S n' => Sleep 1000 :: Status key transcriptId
              :: polling_trace key transcriptId n'
  end.

(** How the loop ends on a response that does not keep it polling. *)
Definition stops_with (r : settled (Json.parsed Json.transcript))
    (polled : Z) : completion locals :=
  match r with
  | Response true (Json.Value v) =>
      Normal (mkLocals (Some v) (Json.status v) polled)
  | Response true (Json.Malformed e) => Throw e
  | Response false _ => Throw (ErrorObj "Failed to check transcription status")
  | Rejected e => Throw e
  end.

(** The display after a turn that read [status] as its [n]-th poll. *)
Definition observe (status : string) (n : Z) (d : display) : display :=
  if String.eqb status "processing" then
    set_processingStage
      ("Processing audio... (" ++
       number_to_string (Math_min 80 (50 + n * 2)) ++ "%)")%string
      (set_processingProgress (Math_min 80 (50 + n * 2)) d)
  else d.

(** The length of the longest prefix of responses that keep the loop going. *)
Fixpoint leading_pending (polls : list (settled (Json.parsed Json.transcript)))
  : nat :=
  match polls with
  | [] => O
  | r :: polls' => if keeps_polling r then S (leading_pending polls') else O
  end.

(** ** Vocabulary of the proofs *)

(** The loop variables and the display once a prefix of responses that keep
    the loop polling has been consumed. *)
Fixpoint after_pending (pre : responses) (l : locals) (d : display)
  : locals * display :=
  match pre with
  | Response true (Json.Value v) :: pre' =>
      after_pending pre'
        (mkLocals (Some v) (Json.status v) (pollCount l + 1))
        (observe (Json.status v) (pollCount l + 1) d)
  | _ => (l, d)
  end.

(** The estimate shown once the first [k] responses have been consumed. *)
Definition progress_after (i : inputs) (transcriptId : string)
    (polls : responses) (d : display) (k : nat) : Z :=
  processingProgress (shown (poll_stage i transcriptId (firstn k polls) d)).

(** The invariant of the loop: the estimate lies between 50 and
    [min 80 (50 + 2 * pollCount)]. *)
Definition progress_inv (l : locals) (d : display) : Prop :=
  0 <= pollCount l /\
  50 <= processingProgress d <= Z.min 80 (50 + 2 * pollCount l).

(** How the upload stage ends, by the response to the upload call. *)
Definition upload_outcome (r : settled (Json.parsed Json.upload))
  : completion string :=
  match r with
  | Response true (Json.Value u) => Normal (Json.upload_url u)
  | Response true (Json.Malformed e) => Throw e
  | Response false _ => Throw (ErrorObj "Failed to upload audio file")
  | Rejected e => Throw e
  end.

(** How the submit stage ends, by the response to the submit call. *)
Definition submit_outcome (r : settled (Json.parsed Json.transcript))
  : completion string :=
  match r with
  | Response true (Json.Value t) => Normal (Json.id t)
  | Response true (Json.Malformed e) => Throw e
  | Response false _ =>
      Throw (ErrorObj "Failed to submit transcription request")
  | Rejected e => Throw e
  end.

(** The display when the try block is entered (lines 106-108). *)
Definition started (d : display) : display :=
  set_successMessage "" (set_errorMessage "" (set_isLoading true d)).

(** The display while the upload call is awaited. *)
Definition uploading (d : display) : display :=
  set_processingStage "Uploading audio file..."
    (set_processingProgress 10 d).

(** The display while the submit call is awaited. *)
Definition submitting (d : display) : display :=
  set_processingStage "Submitting transcription request..."
    (set_processingProgress 30 d).

(** The display when the loop is entered (lines 156-157). *)
Definition polling (d : display) : display :=
  set_processingStage "Processing audio..." (set_processingProgress 50 d).

(** What [catch] and [finally] make of the way the try block ended. *)
Definition settle (x : completion unit * display * list effect)
  : completion unit * display * list effect :=
  match x with
  | (Normal _, d, t) => (Normal tt, set_isLoading false d, t)
  | (Throw e, d, t) =>
      (Normal tt,
       set_isLoading false
         (set_errorMessage
            match e with
            | ErrorObj message => message
            | NotAnError => "An unknown error occurred"
            end d), t)
  | (Suspended, d, t) => (Suspended, d, t)
  end.

Definition is_upload (ev : effect) : bool :=
  match ev with Upload _ _ => true | _ => false end.

Definition is_transcribe (ev : effect) : bool :=
  match ev with Transcribe _ _ _ _ => true | _ => false end.

Definition is_status (ev : effect) : bool :=
  match ev with Status _ _ => true | _ => false end.

Definition is_srt (ev : effect) : bool :=
  match ev with Srt _ _ _ => true | _ => false end.

(** The outbound calls among the effects. *)
Definition is_network_call (ev : effect) : bool :=
  is_upload ev || is_transcribe ev || is_status ev || is_srt ev.

Definition count (p : effect -> bool) (t : list effect) : nat :=
  List.length (filter p t).

(** The refs that polling never writes. *)
Definition same_flags (d1 d2 : display) : Prop :=
  isLoading d1 = isLoading d2 /\
  errorMessage d1 = errorMessage d2 /\
  successMessage d1 = successMessage d2.

(** The display the stage shows after a prefix of responses that keep it
    polling. *)
Definition polled (pre : responses) (d : display) : display :=
  snd (after_pending pre (mkLocals None "processing" 0) (polling d)).

(** The display after a successful run that started formatting from [d]. *)
Definition completed_display (i : inputs) (d : display) : display :=
  mkDisplay (isLoading d) (errorMessage d)
    ("Your " ++ outputType i ++
     " has been successfully processed and downloaded!")%string
    100 "Complete!".

(** The effects of the run up to the end of polling. *)
Definition calls_until_polled (i : inputs) (file : File) (u : Json.upload)
    (t : Json.transcript) (pre : responses) : list effect :=
  StorageSet API_KEY_STORAGE_KEY (apiKey i)
    :: Upload (apiKey i) file
    :: Transcribe (apiKey i) (Json.upload_url u) "en_us" "slam-1"
    :: polling_trace (apiKey i) (Json.id t) (S (List.length pre)).

(** From the specification's words, "splitting on the first '.' and taking
    the first segment": the characters before the first '.', all of them
    when the name has none. *)
Fixpoint before_first_dot (s : string) : string :=
  match s with
  | EmptyString => EmptyString
  | String c rest =>
      if Ascii.eqb c "."%char then EmptyString
      else String c (before_first_dot rest)
  end.

Fixpoint contains_dot (s : string) : bool :=
  match s with
  | EmptyString => false
  | String c rest => Ascii.eqb c "."%char || contains_dot rest
  end.

(** The displays the component can show while no run is in progress: the
    one it is created with, and the one a run that has ended leaves behind.
    Runs do not overlap: the button that calls [processAudio] is disabled
    while [isLoading] is set (template, lines 599-601). *)
Inductive between_runs : display -> Prop :=
| at_creation : between_runs initial_display
| after_run d i net :
    between_runs d ->
    finished (outcome (processAudio i net d)) = true ->
    between_runs (shown (processAudio i net d)).

(** ** Sample data *)

Definition sample_file : File :=
  mkFile "interview.wav" "audio/wav" [Byte.x52; Byte.x49].

Definition sample_inputs : inputs :=
  mkInputs "secret" (Some sample_file) "transcript" 32.

Definition answer (status text : string)
  : settled (Json.parsed Json.transcript) :=
  Response true (Json.Value (Json.mkTranscript "job-1" status text)).

Definition sample_upload : settled (Json.parsed Json.upload) :=
  Response true (Json.Value (Json.mkUpload "https://cdn.example/upload/1")).

Definition sample_network (polls : responses) : network :=
  mkNetwork sample_upload (answer "queued" "") polls (Response true "").

Definition newline : string := String (ascii_of_nat 10) EmptyString.

(** The caption text of the scenario:
    1, 00:00:00,000 --> 00:00:01,000, Hello, each followed by a line feed. *)
Definition sample_srt : string :=
  ("1" ++ newline ++ "00:00:00,000 --> 00:00:01,000" ++ newline ++
   "Hello" ++ newline)%string.

Definition subtitles_inputs : inputs :=
  mkInputs "secret" (Some sample_file) "subtitles" 32.

Definition subtitles_network (srt : settled string) : network :=
  mkNetwork sample_upload (answer "queued" "")
            [answer "completed" "Hello"] srt.

Definition empty_file : File := mkFile "silence.mp3" "audio/mpeg" [].

Definition empty_file_inputs : inputs :=
  mkInputs "secret" (Some empty_file) "transcript" 32.

(** The scenario: queued, processing, processing, completed. *)
Definition scenario : responses :=
  [answer "queued" ""; answer "processing" ""; answer "processing" "";
   answer "completed" "Hello world"].

(** ** The rest of the component *)

(** The whole state of the component (lines 5-17): the refs [processAudio]
    reads, the refs it writes, and the two refs of the user interface. *)
Record component : Type := mkComponent {
  fields : inputs;
  panel : display;
  apiKeyVisible : bool;
  dragActive : bool
}.

(** The component as it is created (lines 5-17). *)
Definition created : component :=
  mkComponent (mkInputs "" None "transcript" 32) initial_display false false.

Definition set_apiKey (s : string) (i : inputs) : inputs :=
  mkInputs s (audioFile i) (outputType i) (characterLength i).

Definition set_audioFile (f : option File) (i : inputs) : inputs :=
  mkInputs (apiKey i) f (outputType i) (characterLength i).

Definition with_fields (f : inputs -> inputs) (c : component) : component :=
  mkComponent (f (fields c)) (panel c) (apiKeyVisible c) (dragActive c).

Definition with_panel (f : display -> display) (c : component) : component :=
  mkComponent (fields c) (f (panel c)) (apiKeyVisible c) (dragActive c).

Definition set_dragActive (b : bool) (c : component) : component :=
  mkComponent (fields c) (panel c) (apiKeyVisible c) b.

(** [localStorage]: [getItem] gives [None] (null) for a key never set. *)
Definition storage : Type := string -> option string.

Definition getItem (st : storage) (key : string) : option string := st key.

Definition setItem (st : storage) (key value : string) : storage :=
  fun k => if String.eqb k key then Some value else st k.

(** What the effects of a run do to [localStorage]. *)
Fixpoint stored (t : list effect) (st : storage) : storage :=
  match t with
  | [] => st
  | StorageSet key value :: t' => stored t' (setItem st key value)
  | _ :: t' => stored t' st
  end.

(** The [onMounted] hook (lines 20-25): a saved key that is truthy becomes
    the [apiKey]. *)
Definition onMounted (st : storage) (c : component) : component :=
  match getItem st API_KEY_STORAGE_KEY with
  | Some savedApiKey =>
      if falsy savedApiKey then c else with_fields (set_apiKey savedApiKey) c
  | None => c
  end.

(** [handleDragEnter], [handleDragLeave], [handleDragOver] (lines 45-58). *)
Definition handleDragEnter (c : component) : component :=
  set_dragActive true c.

Definition handleDragLeave (c : component) : component :=
  set_dragActive false c.

Definition handleDragOver (c : component) : component :=
  set_dragActive true c.

(** [handleDrop] (lines 60-73).  [files] is [event.dataTransfer?.files]:
    absent, or the dropped files in order. *)
Definition handleDrop (files : option (list File)) (c : component)
  : component :=
  let c := set_dragActive false c in
  match files with
  | Some (file :: _) =>
      if String.prefix "audio/" (type file) then
        with_panel (set_errorMessage "")
          (with_fields (set_audioFile (Some file)) c)
      else
        with_panel
          (set_errorMessage "Please select an audio file (MP3, WAV, etc.)") c
  | _ => c
  end.

(** [handleFileChange] (lines 75-81).  [files] is [target.files]. *)
Definition handleFileChange (files : option (list File)) (c : component)
  : component :=
  match files with
  | Some (file :: _) =>
      with_panel (set_errorMessage "")
        (with_fields (set_audioFile (Some file)) c)
  | _ => c
  end.

(** [clearFile] (lines 83-85). *)
Definition clearFile (c : component) : component :=
  with_fields (set_audioFile None) c.

(** [toggleApiKeyVisibility] (lines 87-89). *)
Definition toggleApiKeyVisibility (c : component) : component :=
  mkComponent (fields c) (panel c) (negb (apiKeyVisible c)) (dragActive c).

(** A click on the button of lines 599-601, which is disabled while
    [isLoading] is set: the component afterwards and the effects issued. *)
Definition click (net : network) (c : component)
  : component * list effect :=
  if isLoading (panel c) then (c, [])
  else
    let x := processAudio (fields c) net (panel c) in
    (with_panel (fun _ => shown x) c, issued x).

(** [x.toFixed(2)] for [x = num / den] with [den] a power of two: such a
    quotient is exact in a double for [num] below 2^53, and [toFixed] takes
    the integer [n] with [n / 100] nearest to [x], the larger one of two
    equally near.  [hundredths] is that [n]. *)
Definition hundredths (num den : Z) : Z := (200 * num + den) / (2 * den).

Definition two_digits (n : Z) : string :=
  if n <? 10 then ("0" ++ number_to_string n)%string else number_to_string n.

Definition toFixed2 (num den : Z) : string :=
  let n := hundredths num den in
  (number_to_string (n / 100) ++ "." ++ two_digits (n mod 100))%string.

(** The body of the computed [fileSize] for a file of [fileSizeBytes] bytes
    (lines 36-41). *)
Definition size_label (fileSizeBytes : Z) : string :=
  if fileSizeBytes <? 1024 * 1024 then
    (toFixed2 fileSizeBytes 1024 ++ " KB")%string
  else
    (toFixed2 fileSizeBytes (1024 * 1024) ++ " MB")%string.

(** The computed [fileSize] (lines 33-42). *)
Definition fileSize (c : component) : string :=
  match audioFile (fields c) with
  | None => ""
  | Some f => size_label (size f)
  end.

(** ** Vocabulary of the further properties *)

(** [error instanceof Error ? error.message : "An unknown error occurred"]. *)
Definition message_of (e : thrown) : string :=
  match e with
  | ErrorObj message => message
  | NotAnError => "An unknown error occurred"
  end.

Definition is_download (ev : effect) : bool :=
  match ev with Download _ _ => true | _ => false end.

(** The effect is no network call, or a call whose Authorization is [key]. *)
Definition carries_key (key : string) (ev : effect) : bool :=
  match ev with
  | Upload a _ | Transcribe a _ _ _ | Status a _ | Srt a _ _ =>
      String.eqb a key
  | _ => true
  end.





(** The selected file, if any, declares an audio MIME type. *)
Definition audio_typed (o : option File) : bool :=
  match o with
  | Some f => String.prefix "audio/" (type f)
  | None => true
  end.

(** A response reporting "queued". *)
Definition reports_queued (r : settled (Json.parsed Json.transcript)) : bool :=
  match r with
  | Response true (Json.Value v) => String.eqb (Json.status v) "queued"
  | _ => false
  end.

(** The stage label fits the estimate: the label of loop entry with 50, or
    the label of a "processing" poll quoting the estimate. *)
Definition label_fits (d : display) : Prop :=
  (processingProgress d = 50 /\ processingStage d = "Processing audio...") \/
  processingStage d =
    ("Processing audio... (" ++ number_to_string (processingProgress d) ++
     "%)")%string.

Definition not_storage (ev : effect) : bool :=
  match ev with StorageSet _ _ => false | _ => true end.

Definition set_outputType (s : string) (i : inputs) : inputs :=
  mkInputs (apiKey i) (audioFile i) s (characterLength i).

Definition set_characterLength (c : caption_length) (i : inputs) : inputs :=
  mkInputs (apiKey i) (audioFile i) (outputType i) c.

(** What the user can do to the component besides starting a run: the
    handlers of the script bound in the template (lines 307, 357-360, 396,
    447) and the bindings of the template that write a ref themselves. *)
Inductive ui_event : Type :=
| DragEnter
| DragLeave
| DragOver
| Drop (files : option (list File))
| FileChange (files : option (list File))
| ClearFile
| ToggleApiKeyVisibility
| TypeApiKey (s : string)
    (* v-model="apiKey", line 316 *)
| ChooseTranscript
    (* @click="outputType = 'transcript'" and its radio, lines 475-481 *)
| ChooseSubtitles
    (* @click="outputType = 'subtitles'" and its radio, lines 516-522 *)
| TypeCharacterLength (c : caption_length).
    (* v-model="characterLength" on the number input, line 565 *)

Definition handle (ev : ui_event) (c : component) : component :=
  match ev with
  | DragEnter => handleDragEnter c
  | DragLeave => handleDragLeave c
  | DragOver => handleDragOver c
  | Drop files => handleDrop files c
  | FileChange files => handleFileChange files c
  | ClearFile => clearFile c
  | ToggleApiKeyVisibility => toggleApiKeyVisibility c
  | TypeApiKey s => with_fields (set_apiKey s) c
  | ChooseTranscript => with_fields (set_outputType "transcript") c
  | ChooseSubtitles => with_fields (set_outputType "subtitles") c
  | TypeCharacterLength n => with_fields (set_characterLength n) c
  end.

(** What happens to the component: an event of the user interface, or a
    click on the button with the service answering as [net]; the events
    come between the runs, not during their awaits. *)
Inductive action : Type :=
| Ui (ev : ui_event)
| Press (net : network).

Definition act (a : action) (c : component) : component :=
  match a with
  | Ui ev => handle ev c
  | Press net => fst (click net c)
  end.

(** The component after a sequence of actions. *)
Definition play (acts : list action) (c : component) : component :=
  fold_left (fun c a => act a c) acts c.

(** Every run that the presses of [acts] start, from [c] on, has ended
    before the next action. *)
Fixpoint all_ended (acts : list action) (c : component) : bool :=
  match acts with
  | [] => true
  | a :: acts' =>
      match a with
      | Ui _ => true
      | Press net =>
          isLoading (panel c) ||
          finished (outcome (processAudio (fields c) net (panel c)))
      end && all_ended acts' (act a c)
  end.

(** The component after a sequence of such events. *)
Definition session (evs : list ui_event) (c : component) : component :=
  fold_left (fun c ev => handle ev c) evs c.

(** The file picked through the file input, if one is, declares an audio
    MIME type (the input asks for it with accept="audio/*", line 397, which
    the browser does not enforce). *)
Definition picks_audio (ev : ui_event) : bool :=
  match ev with
  | FileChange (Some (file :: _)) => String.prefix "audio/" (type file)
  | _ => true
  end.

(** ** [downloadFile] at the level of the DOM *)

Module Dom.

(** [new Blob(parts, { type })]. *)
Record blob : Type := mkBlob {
  parts : list string;
  mime : string
}.

(** What [downloadFile] works on in the browser.  Nodes and object URLs
    are known by an identity, drawn from [fresh]. *)
Record browser : Type := mkBrowser {
  children : list nat;              (* the child nodes of document.body *)
  objectURLs : list (nat * blob);   (* the object URLs not yet revoked *)
  fresh : nat;
  saved : list (blob * string)      (* downloads started: content, name *)
}.

(** [URL.createObjectURL(blob)]. *)
Definition createObjectURL (b : blob) (w : browser) : nat * browser :=
  (fresh w,
   mkBrowser (children w) ((fresh w, b) :: objectURLs w) (S (fresh w))
             (saved w)).

(** [document.createElement("a")]: a new node, in no document yet. *)
Definition createElement (w : browser) : nat * browser :=
  (fresh w,
   mkBrowser (children w) (objectURLs w) (S (fresh w)) (saved w)).

(** [document.body.appendChild(a)]: [a] becomes the last child. *)
Definition appendChild (a : nat) (w : browser) : browser :=
  mkBrowser (filter (fun x => negb (Nat.eqb x a)) (children w) ++ [a])
            (objectURLs w) (fresh w) (saved w).

(** The blob an object URL stands for, while it is not revoked. *)
Fixpoint resolve (url : nat) (urls : list (nat * blob)) : option blob :=
  match urls with
  | [] => None
  | (u, b) :: urls' => if Nat.eqb u url then Some b else resolve url urls'
  end.

(** [a.click()] on an anchor with [href] an object URL and a [download]
    name: the browser starts saving what the URL stands for, under that
    name; a URL that stands for nothing saves nothing. *)
Definition click (href : nat) (download : string) (w : browser) : browser :=
  match resolve href (objectURLs w) with
  | Some b =>
      mkBrowser (children w) (objectURLs w) (fresh w)
                (saved w ++ [(b, download)])
  | None => w
  end.

(** [document.body.removeChild(a)]: throws when [a] is no child. *)
Definition removeChild (a : nat) (w : browser) : option browser :=
  if existsb (Nat.eqb a) (children w) then
    Some (mkBrowser (filter (fun x => negb (Nat.eqb x a)) (children w))
                    (objectURLs w) (fresh w) (saved w))
  else None.

(** [URL.revokeObjectURL(url)]. *)
Definition revokeObjectURL (url : nat) (w : browser) : browser :=
  mkBrowser (children w)
            (filter (fun p => negb (Nat.eqb (fst p) url)) (objectURLs w))
            (fresh w) (saved w).

(** [downloadFile] (lines 244-254), call by call; [None] when a call
    throws. *)
Definition downloadFile (content filename : string) (w : browser)
  : option browser :=
  let blob := mkBlob [content] "text/plain" in
  let (url, w) := createObjectURL blob w in
  let (a, w) := createElement w in
  let href := url in
  let download := filename in
  let w := appendChild a w in
  let w := click href download w in
  match removeChild a w with
  | Some w => Some (revokeObjectURL url w)
  | None => None
  end.

(** Every identity in use was drawn from [fresh]. *)
Definition well_formed (w : browser) : Prop :=
  Forall (fun x => (x < fresh w)%nat) (children w) /\
  Forall (fun p => (fst p < fresh w)%nat) (objectURLs w).

End Dom.

(** ** Sample data for the run with the refs edited meanwhile *)

(** A run on a file of the given display name, for the given output type. *)
Definition named_inputs (display_name output : string) : inputs :=
  mkInputs "secret" (Some (mkFile display_name "audio/mpeg" [Byte.x49]))
           output 32.

(** The user clears the file while the run polls (the clear button of
    line 447). *)
Definition cleared_while_polling (m : moment) : inputs :=
  match m with
  | AtSubmit | AtPoll _ => sample_inputs
  | AtFormat | AtCaption => set_audioFile None sample_inputs
  end.

(** The user clears the file while the caption call is awaited. *)
Definition cleared_during_caption (m : moment) : inputs :=
  match m with
  | AtCaption => set_audioFile None subtitles_inputs
  | _ => subtitles_inputs
  end.

(** The user picks another file while the run polls. *)
Definition renamed_while_polling (m : moment) : inputs :=
  match m with
  | AtSubmit | AtPoll _ => sample_inputs
  | AtFormat | AtCaption =>
      set_audioFile (Some (mkFile "notes.v2.mp3" "audio/mpeg" []))
                    sample_inputs
  end.

(** The user retypes the key after the first status query. *)
Definition key_retyped_while_polling (m : moment) : inputs :=
  match m with
  | AtSubmit | AtPoll O => sample_inputs
  | _ => set_apiKey "other" sample_inputs
  end.

(** The user empties the caption length field while the run polls. *)
Definition length_emptied_while_polling (m : moment) : inputs :=
  match m with
  | AtSubmit | AtPoll _ => subtitles_inputs
  | AtFormat | AtCaption =>
      mkInputs "secret" (Some sample_file) "subtitles" (Rendered "")
  end.

(** ** Vocabulary of the run with the refs edited meanwhile *)

(** [n] turns of the loop from turn [k] on, each query carrying the key
    its turn finds. *)
Fixpoint live_polling_trace (seen : moment -> inputs) (transcriptId : string)
    (k n : nat) : list effect :=
  match n with
  | O => []
  | S n' =>
      Sleep 1000 :: Status (apiKey (seen (AtPoll k))) transcriptId
        :: live_polling_trace seen transcriptId (S k) n'
  end.

(** The effects of a run up to the end of polling. *)
Definition live_calls_until_polled (i : inputs) (file : File)
    (seen : moment -> inputs) (u : Json.upload) (t : Json.transcript)
    (pre : responses) : list effect :=
  StorageSet API_KEY_STORAGE_KEY (apiKey i)
    :: Upload (apiKey i) file
    :: Transcribe (apiKey (seen AtSubmit)) (Json.upload_url u) "en_us" "slam-1"
    :: live_polling_trace seen (Json.id t) 0 (S (List.length pre)).

(** Each call of the trace carries the key of its moment: the upload that
    of the start, the submit that of [AtSubmit], the status query of turn
    [k] that of [AtPoll k], the caption call that of [AtFormat].  [k] is the
    turn of the next status query. *)
Fixpoint keyed (i : inputs) (seen : moment -> inputs) (k : nat)
    (t : list effect) : bool :=
  match t with
  | [] => true
  | Upload a _ :: t' => String.eqb a (apiKey i) && keyed i seen k t'
  | Transcribe a _ _ _ :: t' =>
      String.eqb a (apiKey (seen AtSubmit)) && keyed i seen k t'
  | Status a _ :: t' =>
      String.eqb a (apiKey (seen (AtPoll k))) && keyed i seen (S k) t'
  | Srt a _ _ :: t' =>
      String.eqb a (apiKey (seen AtFormat)) && keyed i seen k t'
  | _ :: t' => keyed i seen k t'
  end.

(** The suffix line 200 chooses. *)
Definition suffix (seen : moment -> inputs) : string :=
  if String.eqb (outputType (seen AtFormat)) "subtitles" then ".srt"
  else ".txt".

(** * Properties *)

(** ** The monad, step by step *)

Lemma bind_normal {A B} (m : Async A) (k : A -> Async B) d a d1 t1 :
  m d = (Normal a, d1, t1) ->
  bind m k d = (outcome (k a d1), shown (k a d1), t1 ++ issued (k a d1)).
Proof.
  intros E. unfold bind, outcome, shown, issued. rewrite E.
  destruct (k a d1) as [[c d2] t2]. reflexivity.
Qed.

Lemma bind_throw {A B} (m : Async A) (k : A -> Async B) d e d1 t1 :
  m d = (Throw e, d1, t1) -> bind m k d = (Throw e, d1, t1).
Proof. intros E. unfold bind. rewrite E. reflexivity. Qed.


Lemma bind_modify {B} (f : display -> display) (k : unit -> Async B) d :
  bind (modify f) k d = k tt (f d).
Proof.
  unfold bind, modify. destruct (k tt (f d)) as [[c d2] t2]. reflexivity.
Qed.

Lemma result_eta {A} (x : completion A * display * list effect) :
  x = (outcome x, shown x, issued x).
Proof. destruct x as [[c d] t]. reflexivity. Qed.

(** ** One turn of the loop *)

Lemma update_progress_spec status n d :
  update_progress status n d = (Normal tt, observe status n d, []).
Proof.
  unfold update_progress, observe.
  destruct (String.eqb status "processing"); reflexivity.
Qed.

Lemma poll_iteration_value i transcriptId v l d :
  poll_iteration i transcriptId (Some (Response true (Json.Value v))) l d =
  (Normal (mkLocals (Some v) (Json.status v) (pollCount l + 1)),
   observe (Json.status v) (pollCount l + 1) d,
   [Sleep 1000; Status (apiKey i) transcriptId]).
Proof.
  unfold poll_iteration, fetch, json, perform, ret, bind. cbn [fst snd negb].
  rewrite update_progress_spec. reflexivity.
Qed.

Lemma poll_iteration_stop i transcriptId r l d :
  (forall v, r <> Response true (Json.Value v)) ->
  poll_iteration i transcriptId (Some r) l d =
  (stops_with r (pollCount l + 1), d,
   [Sleep 1000; Status (apiKey i) transcriptId]).
Proof.
  intros H. destruct r as [[|] [v|e]|e]; try reflexivity.
  exfalso. apply (H v). reflexivity.
Qed.

Lemma poll_iteration_none i transcriptId l d :
  poll_iteration i transcriptId None l d =
  (Suspended, d, [Sleep 1000; Status (apiKey i) transcriptId]).
Proof. reflexivity. Qed.

(** ** The polling loop *)

Section Polling.

Variable i : inputs.
Variable transcriptId : string.

Lemma keeps_polling_inv r :
  keeps_polling r = true ->
  exists v, r = Response true (Json.Value v) /\
            in_progress (Json.status v) = true.
Proof.
  destruct r as [[|] [v|e]|e]; cbn; try discriminate.
  intros H. exists v. split; [reflexivity | exact H].
Qed.

Lemma poll_loop_exit (polls : responses) l d :
  loop_condition l = false ->
  poll_loop i transcriptId polls l d = (Normal l, d, []).
Proof. intros H. destruct polls; cbn; rewrite H; reflexivity. Qed.

Lemma poll_loop_nil l d :
  loop_condition l = true ->
  poll_loop i transcriptId [] l d =
  (Suspended, d, [Sleep 1000; Status (apiKey i) transcriptId]).
Proof. intros H. cbn. rewrite H. reflexivity. Qed.

Lemma poll_loop_value v (polls : responses) l d :
  loop_condition l = true ->
  let x := poll_loop i transcriptId polls
             (mkLocals (Some v) (Json.status v) (pollCount l + 1))
             (observe (Json.status v) (pollCount l + 1) d) in
  poll_loop i transcriptId (Response true (Json.Value v) :: polls) l d =
  (outcome x, shown x,
   Sleep 1000 :: Status (apiKey i) transcriptId :: issued x).
Proof.
  intros H x. cbn [poll_loop]. rewrite H.
  rewrite (bind_normal _ _ _ _ _ _ (poll_iteration_value _ _ _ _ _)).
  reflexivity.
Qed.

Lemma poll_loop_stop r (polls : responses) l d :
  loop_condition l = true ->
  (forall v, r <> Response true (Json.Value v)) ->
  poll_loop i transcriptId (r :: polls) l d =
  (stops_with r (pollCount l + 1), d,
   [Sleep 1000; Status (apiKey i) transcriptId]).
Proof.
  intros H Hr. cbn [poll_loop]. rewrite H.
  pose proof (poll_iteration_stop i transcriptId r l d Hr) as E.
  destruct r as [[|] [v|e]|e]; cbn [stops_with] in E |- *;
    try (apply bind_throw; exact E).
  exfalso. apply (Hr v). reflexivity.
Qed.

Lemma after_pending_locals (pre : responses) : forall l d,
  forallb keeps_polling pre = true ->
  loop_condition l = true ->
  loop_condition (fst (after_pending pre l d)) = true /\
  pollCount (fst (after_pending pre l d)) =
    pollCount l + Z.of_nat (List.length pre).
Proof.
  induction pre as [|r pre IH]; intros l d Hpre Hl.
  - cbn. split; [exact Hl | lia].
  - cbn [forallb] in Hpre. apply andb_true_iff in Hpre as [Hr Hpre].
    destruct (keeps_polling_inv r Hr) as [v [-> Hv]].
    cbn [after_pending].
    destruct (IH (mkLocals (Some v) (Json.status v) (pollCount l + 1))
                 (observe (Json.status v) (pollCount l + 1) d) Hpre Hv)
      as [IH1 IH2].
    split; [exact IH1 |].
    rewrite IH2. cbn [pollCount List.length]. lia.
Qed.

(** Through a prefix of responses that keep it polling, the loop does one
    turn per response and goes on with the rest. *)
Lemma poll_loop_pending (pre : responses) : forall (rest : responses) l d,
  forallb keeps_polling pre = true ->
  loop_condition l = true ->
  let x := poll_loop i transcriptId rest
             (fst (after_pending pre l d)) (snd (after_pending pre l d)) in
  poll_loop i transcriptId (pre ++ rest) l d =
  (outcome x, shown x,
   polling_trace (apiKey i) transcriptId (List.length pre) ++ issued x).
Proof.
  induction pre as [|r pre IH]; intros rest l d Hpre Hl.
  - cbn. apply result_eta.
  - cbn [forallb] in Hpre. apply andb_true_iff in Hpre as [Hr Hpre].
    destruct (keeps_polling_inv r Hr) as [v [-> Hv]].
    cbn [app after_pending List.length polling_trace].
    rewrite (poll_loop_value v (pre ++ rest) l d Hl).
    rewrite (IH rest (mkLocals (Some v) (Json.status v) (pollCount l + 1))
               (observe (Json.status v) (pollCount l + 1) d) Hpre Hv).
    reflexivity.
Qed.

(** The loop on a first response that does not keep it polling. *)
Lemma poll_loop_last r (rest : responses) l d :
  loop_condition l = true ->
  keeps_polling r = false ->
  poll_loop i transcriptId (r :: rest) l d =
  (stops_with r (pollCount l + 1),
   match r with
   | Response true (Json.Value v) =>
       observe (Json.status v) (pollCount l + 1) d
   | _ => d
   end,
   [Sleep 1000; Status (apiKey i) transcriptId]).
Proof.
  intros Hl Hr.
  destruct r as [[|] [v|e]|e];
    try (apply poll_loop_stop; [exact Hl | intros v'; discriminate]).
  rewrite (poll_loop_value v rest l d Hl).
  rewrite poll_loop_exit by exact Hr. reflexivity.
Qed.

Lemma polling_trace_snoc key n :
  polling_trace key transcriptId n ++ [Sleep 1000; Status key transcriptId] =
  polling_trace key transcriptId (S n).
Proof.
  induction n as [|n IH]; [reflexivity |].
  cbn [polling_trace app]. rewrite IH. reflexivity.
Qed.

Lemma poll_stage_unfold (polls : responses) d :
  poll_stage i transcriptId polls d =
  poll_loop i transcriptId polls (mkLocals None "processing" 0)
    (set_processingStage "Processing audio..." (set_processingProgress 50 d)).
Proof.
  unfold poll_stage, bind, modify.
  destruct (poll_loop _ _ _ _ _) as [[c d'] t]. reflexivity.
Qed.

(** On responses that all keep it polling the loop is left suspended in the
    turn after the last of them. *)
Lemma poll_loop_all_pending (pre : responses) l d :
  forallb keeps_polling pre = true ->
  loop_condition l = true ->
  poll_loop i transcriptId pre l d =
  (Suspended, snd (after_pending pre l d),
   polling_trace (apiKey i) transcriptId (S (List.length pre))).
Proof.
  intros Hpre Hl.
  pose proof (poll_loop_pending pre [] l d Hpre Hl) as E.
  rewrite app_nil_r in E. rewrite E.
  destruct (after_pending_locals pre l d Hpre Hl) as [Hc _].
  rewrite (poll_loop_nil _ _ Hc). cbn [outcome shown issued fst snd].
  rewrite polling_trace_snoc. reflexivity.
Qed.

End Polling.

(** ** The progress estimate during polling *)

Section Progress.

Variable i : inputs.
Variable transcriptId : string.

Lemma progress_observe s n d :
  processingProgress (observe s n d) =
  if String.eqb s "processing" then Z.min 80 (50 + n * 2)
  else processingProgress d.
Proof. unfold observe. destruct (String.eqb s "processing"); reflexivity. Qed.

Lemma poll_loop_nil_shown l d :
  shown (poll_loop i transcriptId [] l d) = d.
Proof. cbn. destruct (loop_condition l); reflexivity. Qed.

Lemma poll_loop_snoc_shown (pre : responses) v l d :
  forallb keeps_polling pre = true ->
  loop_condition l = true ->
  shown (poll_loop i transcriptId
           (pre ++ [Response true (Json.Value v)]) l d) =
  observe (Json.status v) (pollCount l + Z.of_nat (List.length pre) + 1)
          (snd (after_pending pre l d)).
Proof.
  intros Hpre Hl.
  destruct (after_pending_locals pre l d Hpre Hl) as [Hc Hn].
  rewrite (poll_loop_pending i transcriptId pre _ l d Hpre Hl).
  rewrite (poll_loop_value i transcriptId v [] _ _ Hc).
  cbn [shown fst snd].
  rewrite poll_loop_nil_shown, Hn. reflexivity.
Qed.

Lemma progress_inv_observe v l d :
  progress_inv l d ->
  progress_inv (mkLocals (Some v) (Json.status v) (pollCount l + 1))
               (observe (Json.status v) (pollCount l + 1) d) /\
  processingProgress d <=
    processingProgress (observe (Json.status v) (pollCount l + 1) d).
Proof.
  unfold progress_inv. intros [Hn Hp]. rewrite progress_observe.
  cbn [pollCount].
  destruct (String.eqb (Json.status v) "processing"); lia.
Qed.

(** The loop never lowers the estimate and keeps it at most 80. *)
Lemma poll_loop_progress (polls : responses) : forall l d,
  progress_inv l d ->
  processingProgress d <=
    processingProgress (shown (poll_loop i transcriptId polls l d)) <= 80.
Proof.
  induction polls as [|r polls IH]; intros l d Hinv.
  - rewrite poll_loop_nil_shown. destruct Hinv as [_ H]. lia.
  - destruct (loop_condition l) eqn:Hl.
    + destruct r as [[|] [v|e]|e];
        try (rewrite poll_loop_stop;
             [cbn [shown fst snd]; destruct Hinv as [_ H]; lia
             | exact Hl | intros v'; discriminate]).
      rewrite (poll_loop_value i transcriptId v polls l d Hl).
      cbn [shown fst snd].
      destruct (progress_inv_observe v l d Hinv) as [Hinv' Hle].
      specialize (IH _ _ Hinv'). lia.
    + rewrite poll_loop_exit by exact Hl. cbn [shown fst snd].
      destruct Hinv as [_ H]. lia.
Qed.

(** One more response never lowers the estimate. *)
Lemma poll_loop_progress_mono (polls : responses) r : forall l d,
  progress_inv l d ->
  processingProgress (shown (poll_loop i transcriptId polls l d)) <=
  processingProgress (shown (poll_loop i transcriptId (polls ++ [r]) l d)).
Proof.
  induction polls as [|r0 polls IH]; intros l d Hinv.
  - rewrite poll_loop_nil_shown. cbn [app].
    apply (poll_loop_progress [r] l d Hinv).
  - cbn [app]. destruct (loop_condition l) eqn:Hl.
    + destruct r0 as [[|] [v|e]|e];
        try (rewrite !poll_loop_stop;
             [cbn [shown fst snd]; lia
             | exact Hl | intros v'; discriminate
             | exact Hl | intros v'; discriminate]).
      rewrite (poll_loop_value i transcriptId v polls l d Hl).
      rewrite (poll_loop_value i transcriptId v (polls ++ [r]) l d Hl).
      cbn [shown fst snd].
      destruct (progress_inv_observe v l d Hinv) as [Hinv' _].
      apply (IH _ _ Hinv').
    + rewrite !poll_loop_exit by exact Hl. cbn [shown fst snd]. lia.
Qed.

Lemma progress_inv_start d :
  progress_inv (mkLocals None "processing" 0)
    (set_processingStage "Processing audio..." (set_processingProgress 50 d)).
Proof. unfold progress_inv. cbn. lia. Qed.

End Progress.

(** ** The stages, one by one *)

Section Stages.

Variable i : inputs.
Variable file : File.
Variable net : network.

Lemma upload_stage_spec d :
  upload_stage i file net d =
  (upload_outcome (uploadResponse net), uploading d,
   [Upload (apiKey i) file]).
Proof.
  unfold upload_stage, fetch, json, bind, modify, perform, ret, throw.
  destruct (uploadResponse net) as [[|] [u|e]|e]; reflexivity.
Qed.

Lemma submit_stage_spec audioUrl d :
  submit_stage i audioUrl net d =
  (submit_outcome (transcriptResponse net), submitting d,
   [Transcribe (apiKey i) audioUrl "en_us" "slam-1"]).
Proof.
  unfold submit_stage, fetch, json, bind, modify, perform, ret, throw.
  destruct (transcriptResponse net) as [[|] [u|e]|e]; reflexivity.
Qed.

(** The try block up to the submit call. *)
Lemma job_upload_failed d :
  (forall u, uploadResponse net <> Response true (Json.Value u)) ->
  exists e,
    upload_outcome (uploadResponse net) = Throw e /\
    job i file net d =
    (Throw e, uploading (started d), [Upload (apiKey i) file]).
Proof.
  intros H. unfold job.
  rewrite !bind_modify.
  destruct (uploadResponse net) as [[|] [u|e]|e] eqn:E;
    try (eexists; split; [reflexivity |];
         apply bind_throw; rewrite upload_stage_spec, E; reflexivity).
  exfalso. apply (H u). reflexivity.
Qed.

Lemma job_uploaded u d :
  uploadResponse net = Response true (Json.Value u) ->
  let x := bind (submit_stage i (Json.upload_url u) net)
             (fun transcriptId =>
                l <- poll_stage i transcriptId (pollingResponses net) ;;
                format_stage i file transcriptId net l)
             (uploading (started d)) in
  job i file net d =
  (outcome x, shown x, Upload (apiKey i) file :: issued x).
Proof.
  intros E x. unfold job.
  rewrite !bind_modify.
  rewrite (bind_normal _ _ _ (Json.upload_url u) (uploading (started d))
             [Upload (apiKey i) file])
    by (rewrite upload_stage_spec, E; reflexivity).
  reflexivity.
Qed.

Lemma job_submit_failed u d :
  uploadResponse net = Response true (Json.Value u) ->
  (forall t, transcriptResponse net <> Response true (Json.Value t)) ->
  exists e,
    submit_outcome (transcriptResponse net) = Throw e /\
    job i file net d =
    (Throw e, submitting (uploading (started d)),
     [Upload (apiKey i) file;
      Transcribe (apiKey i) (Json.upload_url u) "en_us" "slam-1"]).
Proof.
  intros E H. rewrite (job_uploaded u d E).
  destruct (transcriptResponse net) as [[|] [t|e]|e] eqn:ET;
    try (eexists; split; [reflexivity |];
         erewrite bind_throw
           by (rewrite submit_stage_spec, ET; reflexivity);
         reflexivity).
  exfalso. apply (H t). reflexivity.
Qed.

Lemma job_submitted u t d :
  uploadResponse net = Response true (Json.Value u) ->
  transcriptResponse net = Response true (Json.Value t) ->
  let x := bind (poll_stage i (Json.id t) (pollingResponses net))
             (format_stage i file (Json.id t) net)
             (submitting (uploading (started d))) in
  job i file net d =
  (outcome x, shown x,
   Upload (apiKey i) file
     :: Transcribe (apiKey i) (Json.upload_url u) "en_us" "slam-1"
     :: issued x).
Proof.
  intros E ET x. rewrite (job_uploaded u d E).
  rewrite (bind_normal _ _ _ (Json.id t)
             (submitting (uploading (started d)))
             [Transcribe (apiKey i) (Json.upload_url u) "en_us" "slam-1"])
    by (rewrite submit_stage_spec, ET; reflexivity).
  reflexivity.
Qed.

Lemma try_job d :
  try_catch_finally (job i file net) on_error (modify (set_isLoading false)) d
  = settle (job i file net d).
Proof.
  unfold try_catch_finally, settle, on_error, modify.
  destruct (job i file net d) as [[[[]|e|] d1] t1];
    cbn [app]; rewrite ?app_nil_r; reflexivity.
Qed.

Lemma processAudio_job d :
  falsy (apiKey i) = false ->
  audioFile i = Some file ->
  let x := settle (job i file net d) in
  processAudio i net d =
  (outcome x, shown x,
   StorageSet API_KEY_STORAGE_KEY (apiKey i) :: issued x).
Proof.
  intros Hk Hf x. unfold processAudio. rewrite Hk, Hf.
  rewrite (bind_normal _ _ d tt d
             [StorageSet API_KEY_STORAGE_KEY (apiKey i)]) by reflexivity.
  rewrite try_job. reflexivity.
Qed.

End Stages.

(** ** Counting the calls of a run *)

Lemma count_app p t1 t2 : count p (t1 ++ t2) = (count p t1 + count p t2)%nat.
Proof. unfold count. rewrite filter_app, length_app. reflexivity. Qed.

Lemma count_cons p ev t :
  count p (ev :: t) = ((if p ev then 1 else 0) + count p t)%nat.
Proof. unfold count. cbn [filter]. destruct (p ev); reflexivity. Qed.

Lemma count_polling_trace key transcriptId n :
  count is_status (polling_trace key transcriptId n) = n /\
  count is_upload (polling_trace key transcriptId n) = O /\
  count is_transcribe (polling_trace key transcriptId n) = O /\
  count is_srt (polling_trace key transcriptId n) = O.
Proof.
  induction n as [|n [IH1 [IH2 [IH3 IH4]]]]; [repeat split |].
  cbn [polling_trace]. rewrite !count_cons. cbn.
  rewrite IH1, IH2, IH3, IH4. repeat split.
Qed.

Lemma bind_issued {A B} (m : Async A) (k : A -> Async B) d :
  issued (bind m k d) =
  issued (m d) ++
  match outcome (m d) with
  | Normal a => issued (k a (shown (m d)))
  | _ => []
  end.
Proof.
  unfold bind, issued, outcome, shown.
  destruct (m d) as [[[a|e|] d1] t1]; cbn [fst snd].
  - destruct (k a d1) as [[c d2] t2]. reflexivity.
  - symmetry. apply app_nil_r.
  - symmetry. apply app_nil_r.
Qed.

Lemma response_cases {A} (r : settled (Json.parsed A)) :
  (exists v, r = Response true (Json.Value v)) \/
  (forall v, r <> Response true (Json.Value v)).
Proof.
  destruct r as [[|] [v|e]|e];
    try (right; intros v'; discriminate).
  left. exists v. reflexivity.
Qed.

Section Calls.

Variable i : inputs.
Variable file : File.
Variable net : network.

(** The loop issues one wait and one query per response that keeps it
    polling, and one more of each. *)
Lemma poll_loop_issued transcriptId polls : forall l d,
  loop_condition l = true ->
  issued (poll_loop i transcriptId polls l d) =
  polling_trace (apiKey i) transcriptId (S (leading_pending polls)).
Proof.
  induction polls as [|r polls IH]; intros l d Hl.
  - rewrite poll_loop_nil by exact Hl. reflexivity.
  - cbn [leading_pending]. destruct (keeps_polling r) eqn:Hr.
    + destruct (keeps_polling_inv r Hr) as [v [-> Hv]].
      rewrite (poll_loop_value i transcriptId v polls l d Hl).
      cbn [issued snd].
      rewrite IH by exact Hv. reflexivity.
    + rewrite (poll_loop_last i transcriptId r polls l d Hl Hr).
      reflexivity.
Qed.

Lemma poll_stage_issued transcriptId polls d :
  issued (poll_stage i transcriptId polls d) =
  polling_trace (apiKey i) transcriptId (S (leading_pending polls)).
Proof.
  rewrite poll_stage_unfold. apply poll_loop_issued. reflexivity.
Qed.

(** The formatting stage issues at most the caption call and the download. *)
Lemma format_stage_issued transcriptId l d :
  let t := issued (format_stage i file transcriptId net l d) in
  count is_upload t = O /\ count is_transcribe t = O /\
  count is_status t = O /\ (count is_srt t <= 1)%nat.
Proof.
  unfold format_stage, produce_output.
  destruct (String.eqb (status l) "completed"); [| cbn; repeat split; lia].
  rewrite !bind_modify.
  destruct (String.eqb (outputType i) "subtitles").
  - rewrite bind_issued. rewrite !bind_modify.
    unfold fetch, bind, perform, ret, throw, modify, downloadFile.
    destruct (srtResponse net) as [[|] body|e]; cbn; repeat split; lia.
  - destruct (result l) as [res|]; cbn; repeat split; lia.
Qed.

(** Every run issues at most one upload, one submit and one caption call,
    and no more status queries than responses that kept it polling, plus
    one. *)
Lemma job_calls d :
  let t := issued (job i file net d) in
  (count is_upload t <= 1)%nat /\ (count is_transcribe t <= 1)%nat /\
  (count is_srt t <= 1)%nat /\
  (count is_status t <= S (leading_pending (pollingResponses net)))%nat.
Proof.
  destruct (response_cases (uploadResponse net)) as [[u E]|E].
  - destruct (response_cases (transcriptResponse net)) as [[t ET]|ET].
    + rewrite (job_submitted i file net u t d E ET).
      cbn [issued snd]. rewrite !count_cons. cbn [is_upload is_transcribe
        is_srt is_status].
      rewrite bind_issued, poll_stage_issued, !count_app.
      destruct (count_polling_trace (apiKey i) (Json.id t)
                  (S (leading_pending (pollingResponses net))))
        as [C1 [C2 [C3 C4]]].
      rewrite C1, C2, C3, C4.
      destruct (outcome (poll_stage i (Json.id t) (pollingResponses net)
                           (submitting (uploading (started d)))))
        as [l|e|]; try (cbn; repeat split; lia).
      destruct (format_stage_issued (Json.id t) l
                  (shown (poll_stage i (Json.id t) (pollingResponses net)
                            (submitting (uploading (started d))))))
        as [F1 [F2 [F3 F4]]].
      rewrite F1, F2, F3. repeat split; lia.
    + destruct (job_submit_failed i file net u d E ET) as [e [_ ->]].
      cbn. repeat split; lia.
  - destruct (job_upload_failed i file net d E) as [e [_ ->]].
    cbn. repeat split; lia.
Qed.

End Calls.

(** ** What polling leaves untouched *)

Lemma same_flags_refl d : same_flags d d.
Proof. repeat split. Qed.

Lemma same_flags_trans d1 d2 d3 :
  same_flags d1 d2 -> same_flags d2 d3 -> same_flags d1 d3.
Proof.
  unfold same_flags. intros [A1 [A2 A3]] [B1 [B2 B3]].
  repeat split; congruence.
Qed.

Lemma same_flags_observe s n d : same_flags (observe s n d) d.
Proof.
  unfold observe. destruct (String.eqb s "processing"); repeat split.
Qed.

Section PollStage.

Variable i : inputs.
Variable transcriptId : string.

Lemma poll_loop_same_flags (polls : responses) : forall l d,
  same_flags (shown (poll_loop i transcriptId polls l d)) d.
Proof.
  induction polls as [|r polls IH]; intros l d.
  - rewrite poll_loop_nil_shown. apply same_flags_refl.
  - destruct (loop_condition l) eqn:Hl.
    + destruct r as [[|] [v|e]|e];
        try (rewrite poll_loop_stop;
             [apply same_flags_refl | exact Hl | intros v'; discriminate]).
      rewrite (poll_loop_value i transcriptId v polls l d Hl).
      cbn [shown fst snd].
      eapply same_flags_trans; [apply IH | apply same_flags_observe].
    + rewrite poll_loop_exit by exact Hl. apply same_flags_refl.
Qed.

Lemma poll_stage_same_flags (polls : responses) d :
  same_flags (shown (poll_stage i transcriptId polls d)) d.
Proof.
  rewrite poll_stage_unfold.
  eapply same_flags_trans; [apply poll_loop_same_flags |].
  repeat split.
Qed.

Lemma poll_stage_pending (pre : responses) d :
  forallb keeps_polling pre = true ->
  poll_stage i transcriptId pre d =
  (Suspended, polled pre d,
   polling_trace (apiKey i) transcriptId (S (List.length pre))).
Proof.
  intros Hpre. rewrite poll_stage_unfold.
  apply poll_loop_all_pending; [exact Hpre | reflexivity].
Qed.

Lemma poll_stage_stops (pre : responses) r (rest : responses) d :
  forallb keeps_polling pre = true ->
  keeps_polling r = false ->
  poll_stage i transcriptId (pre ++ r :: rest) d =
  (stops_with r (Z.of_nat (List.length pre) + 1),
   match r with
   | Response true (Json.Value v) =>
       observe (Json.status v) (Z.of_nat (List.length pre) + 1)
               (polled pre d)
   | _ => polled pre d
   end,
   polling_trace (apiKey i) transcriptId (S (List.length pre))).
Proof.
  intros Hpre Hr. rewrite poll_stage_unfold.
  set (l0 := mkLocals None "processing" 0).
  assert (Hl0 : loop_condition l0 = true) by reflexivity.
  destruct (after_pending_locals pre l0 (polling d) Hpre Hl0) as [Hc Hn].
  change (set_processingStage "Processing audio..."
            (set_processingProgress 50 d)) with (polling d).
  rewrite (poll_loop_pending i transcriptId pre (r :: rest) l0 (polling d)
             Hpre Hl0).
  rewrite (poll_loop_last i transcriptId r rest _ _ Hc Hr).
  cbn [outcome shown issued fst snd].
  rewrite Hn. cbn [pollCount l0]. rewrite Z.add_0_l.
  rewrite polling_trace_snoc. reflexivity.
Qed.

(** Every list of responses is all of the kind that keeps the loop polling,
    or has a first response that is not. *)
Lemma responses_split (polls : responses) :
  forallb keeps_polling polls = true \/
  exists pre r rest,
    polls = pre ++ r :: rest /\
    forallb keeps_polling pre = true /\ keeps_polling r = false.
Proof.
  induction polls as [|r polls IH]; [left; reflexivity |].
  destruct (keeps_polling r) eqn:Hr.
  - destruct IH as [IH | [pre [r' [rest [E [Hpre Hr']]]]]].
    + left. cbn [forallb]. rewrite Hr, IH. reflexivity.
    + right. exists (r :: pre), r', rest. subst polls.
      cbn [forallb app]. rewrite Hr, Hpre. repeat split. exact Hr'.
  - right. exists [], r, polls. repeat split. exact Hr.
Qed.

(** The stage returns to the rest of the run only on a successful response
    whose status is neither "processing" nor "queued". *)
Lemma poll_stage_normal_inv (polls : responses) d l :
  outcome (poll_stage i transcriptId polls d) = Normal l ->
  exists pre v rest,
    polls = pre ++ Response true (Json.Value v) :: rest /\
    forallb keeps_polling pre = true /\
    in_progress (Json.status v) = false /\
    l = mkLocals (Some v) (Json.status v) (Z.of_nat (List.length pre) + 1).
Proof.
  intros H.
  destruct (responses_split polls)
    as [Hall | [pre [r [rest [E [Hpre Hr]]]]]].
  - rewrite (poll_stage_pending polls d Hall) in H. discriminate.
  - subst polls. rewrite (poll_stage_stops pre r rest d Hpre Hr) in H.
    cbn [outcome fst] in H.
    destruct r as [[|] [v|e]|e]; cbn [stops_with] in H; try discriminate.
    exists pre, v, rest. injection H as <-. repeat split; assumption.
Qed.

End PollStage.

(** ** The formatting stage *)

Section Formatting.

Variable i : inputs.
Variable file : File.
Variable transcriptId : string.
Variable net : network.

Lemma format_stage_failed l d :
  String.eqb (status l) "completed" = false ->
  format_stage i file transcriptId net l d =
  (Throw (ErrorObj ("Transcription failed with status: " ++ status l)%string),
   d, []).
Proof. intros H. unfold format_stage. rewrite H. reflexivity. Qed.

Lemma format_stage_isLoading l d :
  isLoading (shown (format_stage i file transcriptId net l d)) = isLoading d.
Proof.
  unfold format_stage, produce_output, fetch.
  destruct (String.eqb (status l) "completed"); [| reflexivity].
  destruct (String.eqb (outputType i) "subtitles").
  - destruct (srtResponse net) as [[|] body|e]; reflexivity.
  - destruct (result l); reflexivity.
Qed.

(** The formatting stage raises the estimate above 80 only for the status
    "completed". *)
Lemma format_stage_progress l d :
  processingProgress d <= 80 ->
  80 < processingProgress (shown (format_stage i file transcriptId net l d)) ->
  status l = "completed".
Proof.
  intros Hd. unfold format_stage.
  destruct (String.eqb (status l) "completed") eqn:E.
  - intros _. apply String.eqb_eq. exact E.
  - cbn. lia.
Qed.

End Formatting.

(** ** A run that gets a final status *)

Section Run.

Variable i : inputs.
Variable file : File.
Variable net : network.
Variable u : Json.upload.
Variable t : Json.transcript.
Variable pre rest : list (settled (Json.parsed Json.transcript)).
Variable v : Json.transcript.

Hypothesis has_key : falsy (apiKey i) = false.
Hypothesis has_file : audioFile i = Some file.
Hypothesis uploaded : uploadResponse net = Response true (Json.Value u).
Hypothesis submitted : transcriptResponse net = Response true (Json.Value t).
Hypothesis polls :
  pollingResponses net = pre ++ Response true (Json.Value v) :: rest.
Hypothesis pending : forallb keeps_polling pre = true.
Hypothesis final : in_progress (Json.status v) = false.

Lemma observe_final n d : observe (Json.status v) n d = d.
Proof.
  unfold observe. unfold in_progress in final.
  apply orb_false_iff in final as [-> _]. reflexivity.
Qed.

Lemma processAudio_polled d :
  let l := mkLocals (Some v) (Json.status v)
             (Z.of_nat (List.length pre) + 1) in
  let dp := polled pre (submitting (uploading (started d))) in
  let y := settle (format_stage i file (Json.id t) net l dp) in
  processAudio i net d =
  (outcome y, shown y, calls_until_polled i file u t pre ++ issued y) /\
  same_flags dp (started d).
Proof.
  intros l dp y. split.
  - rewrite (processAudio_job i file net d has_key has_file).
    rewrite (job_submitted i file net u t d uploaded submitted).
    rewrite polls.
    rewrite (bind_normal _ _ _ l dp
               (polling_trace (apiKey i) (Json.id t) (S (List.length pre)))).
    + subst y. unfold calls_until_polled.
      destruct (format_stage i file (Json.id t) net l dp) as [[[[]|e|] d1] t1];
        reflexivity.
    + rewrite (poll_stage_stops i (Json.id t) pre _ rest _ pending)
        by exact final.
      cbn [stops_with]. rewrite observe_final. reflexivity.
  - pose proof (poll_stage_same_flags i (Json.id t) pre
                  (submitting (uploading (started d)))) as H.
    rewrite (poll_stage_pending i (Json.id t) pre _ pending) in H.
    cbn [shown fst snd] in H.
    eapply same_flags_trans; [exact H | repeat split].
Qed.

End Run.

(** ** Further facts about whole runs and about file names *)

Lemma bind_shown {A B} (m : Async A) (k : A -> Async B) d :
  shown (bind m k d) =
  match outcome (m d) with
  | Normal a => shown (k a (shown (m d)))
  | _ => shown (m d)
  end.
Proof.
  unfold bind, outcome, shown.
  destruct (m d) as [[[a|e|] d1] t1]; cbn [fst snd]; try reflexivity.
  destruct (k a d1) as [[c d2] t2]. reflexivity.
Qed.

Lemma settle_issued (x : completion unit * display * list effect) :
  issued (settle x) = issued x.
Proof. destruct x as [[[[]|e|] d] t]; reflexivity. Qed.

Lemma settle_progress (x : completion unit * display * list effect) :
  processingProgress (shown (settle x)) = processingProgress (shown x).
Proof. destruct x as [[[[]|e|] d] t]; reflexivity. Qed.

Lemma settle_isLoading (x : completion unit * display * list effect) :
  isLoading (shown x) = true ->
  isLoading (shown (settle x)) = negb (finished (outcome (settle x))).
Proof. destruct x as [[[[]|e|] d] t]; cbn; intros H; congruence. Qed.

(** Inside the try block the flag is set and stays set. *)
Lemma job_isLoading i file net d :
  isLoading (shown (job i file net d)) = true.
Proof.
  destruct (response_cases (uploadResponse net)) as [[u E]|E].
  - destruct (response_cases (transcriptResponse net)) as [[t ET]|ET].
    + rewrite (job_submitted i file net u t d E ET). cbn [shown fst snd].
      rewrite bind_shown.
      pose proof (poll_stage_same_flags i (Json.id t) (pollingResponses net)
                    (submitting (uploading (started d)))) as [H _].
      destruct (outcome (poll_stage i (Json.id t) (pollingResponses net)
                           (submitting (uploading (started d)))))
        as [l|e|]; try exact H.
      rewrite format_stage_isLoading. exact H.
    + destruct (job_submit_failed i file net u d E ET) as [e [_ ->]].
      reflexivity.
  - destruct (job_upload_failed i file net d E) as [e [_ ->]].
    reflexivity.
Qed.

Lemma poll_stage_progress i transcriptId polls d :
  50 <= processingProgress (shown (poll_stage i transcriptId polls d)) <= 80.
Proof.
  rewrite poll_stage_unfold.
  pose proof (poll_loop_progress i transcriptId polls _ _
                (progress_inv_start d)) as H.
  cbn [processingProgress set_processingStage set_processingProgress] in H.
  exact H.
Qed.

Lemma split_nonempty sep s : split sep s <> [].
Proof.
  destruct s as [|c rest]; cbn; [discriminate |].
  destruct (Ascii.eqb c sep); [discriminate |].
  destruct (split sep rest); discriminate.
Qed.

Lemma stem_before_first_dot display_name :
  stem display_name = before_first_dot display_name.
Proof.
  unfold stem. induction display_name as [|c rest IH]; [reflexivity |].
  cbn [split before_first_dot].
  destruct (Ascii.eqb c "."%char); [reflexivity |].
  destruct (split "."%char rest) as [|seg segs] eqn:E.
  - exfalso. apply (split_nonempty _ _ E).
  - cbn [first_segment] in IH |- *. rewrite IH. reflexivity.
Qed.

Lemma before_first_dot_whole s :
  contains_dot s = false -> before_first_dot s = s.
Proof.
  induction s as [|c rest IH]; [reflexivity |].
  cbn. destruct (Ascii.eqb c "."%char); [discriminate |].
  cbn. intros H. rewrite IH by exact H. reflexivity.
Qed.

Lemma before_first_dot_prefix a b :
  contains_dot a = false ->
  before_first_dot (a ++ String "."%char b)%string = a.
Proof.
  induction a as [|c rest IH]; [reflexivity |].
  cbn. destruct (Ascii.eqb c "."%char); [discriminate |].
  cbn. intros H. rewrite IH by exact H. reflexivity.
Qed.

(** ** The run with the refs edited meanwhile *)

Lemma try_settle (body : Async unit) d :
  try_catch_finally body on_error (modify (set_isLoading false)) d =
  settle (body d).
Proof.
  unfold try_catch_finally, settle, on_error, modify.
  destruct (body d) as [[[[]|e|] d1] t1];
    cbn [app]; rewrite ?app_nil_r; reflexivity.
Qed.

(** The loop ends the same way and shows the same display whatever keys its
    queries carry. *)
Lemma live_poll_loop_same seen i transcriptId polls : forall k l d,
  outcome (Live.poll_loop seen k transcriptId polls l d) =
    outcome (poll_loop i transcriptId polls l d) /\
  shown (Live.poll_loop seen k transcriptId polls l d) =
    shown (poll_loop i transcriptId polls l d).
Proof.
  induction polls as [|r polls IH]; intros k l d.
  - cbn [Live.poll_loop poll_loop]. destruct (loop_condition l);
      split; reflexivity.
  - destruct (loop_condition l) eqn:Hl.
    + destruct r as [[|] [v|e]|e];
        try (rewrite poll_loop_stop by (exact Hl || (intros v'; discriminate));
             cbn [Live.poll_loop]; rewrite Hl;
             erewrite bind_throw by reflexivity; split; reflexivity).
      rewrite (poll_loop_value i transcriptId v polls l d Hl).
      cbn [Live.poll_loop]. rewrite Hl.
      rewrite (bind_normal _ _ _ _ _ _ (poll_iteration_value _ _ _ _ _)).
      cbn [outcome shown fst snd]. apply IH.
    + rewrite (poll_loop_exit i transcriptId (r :: polls) l d Hl).
      cbn [Live.poll_loop]. rewrite Hl. split; reflexivity.
Qed.

Lemma live_poll_loop_issued seen transcriptId polls : forall k l d,
  loop_condition l = true ->
  issued (Live.poll_loop seen k transcriptId polls l d) =
  live_polling_trace seen transcriptId k (S (leading_pending polls)).
Proof.
  induction polls as [|r polls IH]; intros k l d Hl.
  - cbn [Live.poll_loop]. rewrite Hl. reflexivity.
  - cbn [Live.poll_loop leading_pending]. rewrite Hl.
    destruct (keeps_polling r) eqn:Hr.
    + destruct (keeps_polling_inv r Hr) as [v [-> Hv]].
      rewrite (bind_normal _ _ _ _ _ _ (poll_iteration_value _ _ _ _ _)).
      cbn [issued snd app]. rewrite IH by exact Hv. reflexivity.
    + destruct r as [[|] [v|e]|e];
        try (erewrite bind_throw by reflexivity; reflexivity).
      rewrite (bind_normal _ _ _ _ _ _ (poll_iteration_value _ _ _ _ _)).
      cbn [issued snd app]. cbn [Live.poll_loop].
      assert (E : forall polls' k',
                 Live.poll_loop seen k' transcriptId polls'
                   (mkLocals (Some v) (Json.status v) (pollCount l + 1))
                   (observe (Json.status v) (pollCount l + 1) d) =
                 (Normal (mkLocals (Some v) (Json.status v) (pollCount l + 1)),
                  observe (Json.status v) (pollCount l + 1) d, [])).
      { intros polls' k'. cbn [keeps_polling] in Hr.
        unfold in_progress in Hr.
        destruct polls'; cbn [Live.poll_loop];
          unfold loop_condition; cbn [status]; rewrite Hr; reflexivity. }
      rewrite E. reflexivity.
Qed.

Lemma leading_pending_app pre r rest :
  forallb keeps_polling pre = true ->
  keeps_polling r = false ->
  leading_pending (pre ++ r :: rest) = List.length pre.
Proof.
  intros Hpre Hr. induction pre as [|r0 pre IH].
  - cbn. rewrite Hr. reflexivity.
  - cbn [forallb] in Hpre. apply andb_true_iff in Hpre as [H0 Hpre].
    cbn [app leading_pending List.length]. rewrite H0, (IH Hpre).
    reflexivity.
Qed.

Lemma live_poll_stage_unfold seen transcriptId polls d :
  Live.poll_stage seen transcriptId polls d =
  Live.poll_loop seen 0 transcriptId polls (mkLocals None "processing" 0)
    (polling d).
Proof. unfold Live.poll_stage. rewrite !bind_modify. reflexivity. Qed.

(** The polling stage of a run whose refs are edited, by that of the run
    nobody disturbs: the same outcome, the same display, and the same waits
    and queries, each query with the key its turn finds. *)
Lemma live_poll_stage seen i transcriptId polls d :
  Live.poll_stage seen transcriptId polls d =
  (outcome (poll_stage i transcriptId polls d),
   shown (poll_stage i transcriptId polls d),
   live_polling_trace seen transcriptId 0 (S (leading_pending polls))).
Proof.
  rewrite live_poll_stage_unfold, (poll_stage_unfold i).
  rewrite (result_eta (Live.poll_loop _ _ _ _ _ _)).
  destruct (live_poll_loop_same seen i transcriptId polls 0%nat
              (mkLocals None "processing" 0) (polling d)) as [-> ->].
  rewrite live_poll_loop_issued by reflexivity. reflexivity.
Qed.

Section LiveStages.

Variable i : inputs.
Variable file : File.
Variable seen : moment -> inputs.
Variable net : network.

Lemma live_job_upload_failed d :
  (forall u, uploadResponse net <> Response true (Json.Value u)) ->
  exists e,
    upload_outcome (uploadResponse net) = Throw e /\
    Live.job i file seen net d =
    (Throw e, uploading (started d), [Upload (apiKey i) file]).
Proof.
  intros H. unfold Live.job. rewrite !bind_modify.
  destruct (uploadResponse net) as [[|] [u|e]|e] eqn:E;
    try (eexists; split; [reflexivity |];
         apply bind_throw; rewrite upload_stage_spec, E; reflexivity).
  exfalso. apply (H u). reflexivity.
Qed.

Lemma live_job_uploaded u d :
  uploadResponse net = Response true (Json.Value u) ->
  let x := bind (submit_stage (seen AtSubmit) (Json.upload_url u) net)
             (fun transcriptId =>
                l <- Live.poll_stage seen transcriptId
                       (pollingResponses net) ;;
                Live.format_stage seen transcriptId net l)
             (uploading (started d)) in
  Live.job i file seen net d =
  (outcome x, shown x, Upload (apiKey i) file :: issued x).
Proof.
  intros E x. unfold Live.job. rewrite !bind_modify.
  rewrite (bind_normal _ _ _ (Json.upload_url u) (uploading (started d))
             [Upload (apiKey i) file])
    by (rewrite upload_stage_spec, E; reflexivity).
  reflexivity.
Qed.

Lemma live_job_submit_failed u d :
  uploadResponse net = Response true (Json.Value u) ->
  (forall t, transcriptResponse net <> Response true (Json.Value t)) ->
  exists e,
    submit_outcome (transcriptResponse net) = Throw e /\
    Live.job i file seen net d =
    (Throw e, submitting (uploading (started d)),
     [Upload (apiKey i) file;
      Transcribe (apiKey (seen AtSubmit)) (Json.upload_url u)
                 "en_us" "slam-1"]).
Proof.
  intros E H. rewrite (live_job_uploaded u d E).
  destruct (transcriptResponse net) as [[|] [t|e]|e] eqn:ET;
    try (eexists; split; [reflexivity |];
         erewrite bind_throw
           by (rewrite submit_stage_spec, ET; reflexivity);
         reflexivity).
  exfalso. apply (H t). reflexivity.
Qed.

Lemma live_job_submitted u t d :
  uploadResponse net = Response true (Json.Value u) ->
  transcriptResponse net = Response true (Json.Value t) ->
  let x := bind (Live.poll_stage seen (Json.id t) (pollingResponses net))
             (Live.format_stage seen (Json.id t) net)
             (submitting (uploading (started d))) in
  Live.job i file seen net d =
  (outcome x, shown x,
   Upload (apiKey i) file
     :: Transcribe (apiKey (seen AtSubmit)) (Json.upload_url u)
                   "en_us" "slam-1"
     :: issued x).
Proof.
  intros E ET x. rewrite (live_job_uploaded u d E).
  rewrite (bind_normal _ _ _ (Json.id t)
             (submitting (uploading (started d)))
             [Transcribe (apiKey (seen AtSubmit)) (Json.upload_url u)
                         "en_us" "slam-1"])
    by (rewrite submit_stage_spec, ET; reflexivity).
  reflexivity.
Qed.

Lemma live_processAudio_job d :
  falsy (apiKey i) = false ->
  audioFile i = Some file ->
  let x := settle (Live.job i file seen net d) in
  Live.processAudio i seen net d =
  (outcome x, shown x,
   StorageSet API_KEY_STORAGE_KEY (apiKey i) :: issued x).
Proof.
  intros Hk Hf x. unfold Live.processAudio. rewrite Hk, Hf.
  rewrite (bind_normal _ _ d tt d
             [StorageSet API_KEY_STORAGE_KEY (apiKey i)]) by reflexivity.
  rewrite try_settle. reflexivity.
Qed.

End LiveStages.

(** *** The run nobody disturbs *)

Lemma live_poll_loop_still i transcriptId polls : forall k l d,
  Live.poll_loop (still i) k transcriptId polls l d =
  poll_loop i transcriptId polls l d.
Proof.
  induction polls as [|r polls IH]; intros k l d; [reflexivity |].
  cbn [Live.poll_loop poll_loop]. destruct (loop_condition l);
    [| reflexivity].
  unfold still at 1. unfold bind.
  destruct (poll_iteration i transcriptId (Some r) l d) as [[[l'|e|] d1] t1];
    try reflexivity.
  rewrite IH. reflexivity.
Qed.

Lemma live_produce_output_still i file transcriptId net l d :
  audioFile i = Some file ->
  Live.produce_output (still i) transcriptId net l d =
  produce_output i file transcriptId net l d.
Proof.
  intros Hf. unfold Live.produce_output, produce_output, Live.filename, still.
  rewrite Hf. destruct (String.eqb (outputType i) "subtitles").
  - unfold fetch, bind, perform, modify, ret, throw.
    destruct (srtResponse net) as [[|] body|e]; reflexivity.
  - destruct (result l); reflexivity.
Qed.

Lemma live_format_stage_still i file transcriptId net l d :
  audioFile i = Some file ->
  Live.format_stage (still i) transcriptId net l d =
  format_stage i file transcriptId net l d.
Proof.
  intros Hf. unfold Live.format_stage, format_stage.
  destruct (String.eqb (status l) "completed"); [| reflexivity].
  rewrite !bind_modify. unfold bind at 1 3.
  rewrite (live_produce_output_still i file transcriptId net l _ Hf).
  unfold Live.at_download, still. reflexivity.
Qed.

(** [processAudio] is [Live.processAudio] for the run during which the user
    edits nothing. *)
Lemma live_still i net d :
  Live.processAudio i (still i) net d = processAudio i net d.
Proof.
  unfold Live.processAudio, processAudio.
  destruct (falsy (apiKey i)); [reflexivity |].
  unfold bind. destruct (saveApiKey i d) as [[[[]|e|] d1] t1];
    try reflexivity.
  destruct (audioFile i) as [file|] eqn:Hf; [| reflexivity].
  rewrite try_settle, try_job. do 2 f_equal.
  unfold Live.job, job. rewrite !bind_modify. unfold bind.
  destruct (upload_stage i file net _) as [[[audioUrl|e|] d2] t2];
    try reflexivity.
  unfold still at 1.
  destruct (submit_stage i audioUrl net d2) as [[[transcriptId|e|] d3] t3];
    try reflexivity.
  unfold Live.poll_stage, poll_stage. rewrite !bind_modify.
  rewrite live_poll_loop_still.
  destruct (poll_loop i transcriptId (pollingResponses net) _ _)
    as [[[l|e|] d4] t4]; try reflexivity.
  rewrite (live_format_stage_still i file transcriptId net l d4 Hf).
  reflexivity.
Qed.

(** *** A run that gets a final status, with the refs as it finds them *)

Section LiveRun.

Variable i : inputs.
Variable file : File.
Variable seen : moment -> inputs.
Variable net : network.
Variable u : Json.upload.
Variable t : Json.transcript.
Variable pre rest : responses.
Variable v : Json.transcript.

Hypothesis has_key : falsy (apiKey i) = false.
Hypothesis has_file : audioFile i = Some file.
Hypothesis uploaded : uploadResponse net = Response true (Json.Value u).
Hypothesis submitted : transcriptResponse net = Response true (Json.Value t).
Hypothesis polls :
  pollingResponses net = pre ++ Response true (Json.Value v) :: rest.
Hypothesis pending : forallb keeps_polling pre = true.
Hypothesis final : in_progress (Json.status v) = false.

Lemma live_processAudio_polled d :
  let l := mkLocals (Some v) (Json.status v)
             (Z.of_nat (List.length pre) + 1) in
  let dp := polled pre (submitting (uploading (started d))) in
  let y := settle (Live.format_stage seen (Json.id t) net l dp) in
  Live.processAudio i seen net d =
  (outcome y, shown y,
   live_calls_until_polled i file seen u t pre ++ issued y) /\
  same_flags dp (started d).
Proof.
  intros l dp y. split.
  - rewrite (live_processAudio_job i file seen net d has_key has_file).
    rewrite (live_job_submitted i file seen net u t d uploaded submitted).
    rewrite polls.
    rewrite (bind_normal _ _ _ l dp
               (live_polling_trace seen (Json.id t) 0
                  (S (List.length pre)))).
    + subst y. unfold live_calls_until_polled.
      destruct (Live.format_stage seen (Json.id t) net l dp)
        as [[[[]|e|] d1] t1]; reflexivity.
    + rewrite (live_poll_stage seen i).
      rewrite (poll_stage_stops i (Json.id t) pre _ rest _ pending)
        by exact final.
      cbn [outcome shown fst snd stops_with].
      rewrite (observe_final v final).
      rewrite leading_pending_app by (exact pending || exact final).
      reflexivity.
  - pose proof (poll_stage_same_flags i (Json.id t) pre
                  (submitting (uploading (started d)))) as H.
    rewrite (poll_stage_pending i (Json.id t) pre _ pending) in H.
    cbn [shown fst snd] in H.
    eapply same_flags_trans; [exact H | repeat split].
Qed.

End LiveRun.

(** *** The formatting stage with the refs as it finds them *)

Section LiveFormatting.

Variable seen : moment -> inputs.
Variable transcriptId : string.
Variable net : network.

Lemma live_format_stage_transcript l res selected d :
  String.eqb (status l) "completed" = true ->
  String.eqb (outputType (seen AtFormat)) "subtitles" = false ->
  result l = Some res ->
  audioFile (seen AtFormat) = Some selected ->
  Live.format_stage seen transcriptId net l d =
  (Normal tt, completed_display (seen AtFormat) d,
   [Download (Json.text res) (stem (name selected) ++ ".txt")%string]).
Proof.
  intros H1 H2 H3 H4.
  unfold Live.format_stage, Live.produce_output, Live.at_download,
    Live.filename.
  rewrite H1, H2, H3, H4. reflexivity.
Qed.

Lemma live_format_stage_transcript_cleared l res d :
  String.eqb (status l) "completed" = true ->
  String.eqb (outputType (seen AtFormat)) "subtitles" = false ->
  result l = Some res ->
  audioFile (seen AtFormat) = None ->
  Live.format_stage seen transcriptId net l d =
  (Throw null_name_error,
   set_processingStage "Generating output file..."
     (set_processingProgress 90 d), []).
Proof.
  intros H1 H2 H3 H4.
  unfold Live.format_stage, Live.produce_output, Live.filename.
  rewrite H1, H2, H3, H4. reflexivity.
Qed.

(** The display while the caption call is awaited. *)
Lemma live_format_stage_subtitles l body selected d :
  String.eqb (status l) "completed" = true ->
  String.eqb (outputType (seen AtFormat)) "subtitles" = true ->
  srtResponse net = Response true body ->
  audioFile (seen AtCaption) = Some selected ->
  Live.format_stage seen transcriptId net l d =
  (Normal tt, completed_display (seen AtCaption) d,
   [Srt (apiKey (seen AtFormat)) transcriptId
        (characterLength (seen AtFormat));
    Download body (stem (name selected) ++ ".srt")%string]).
Proof.
  intros H1 H2 H3 H4.
  unfold Live.format_stage, Live.produce_output, Live.at_download,
    Live.filename, fetch.
  rewrite H1, H2, H3, H4. reflexivity.
Qed.

Lemma live_format_stage_subtitles_failed l e d :
  String.eqb (status l) "completed" = true ->
  String.eqb (outputType (seen AtFormat)) "subtitles" = true ->
  match srtResponse net with
  | Response true _ =>
      audioFile (seen AtCaption) = None /\ e = null_name_error
  | Response false _ => e = ErrorObj "Failed to get SRT file"
  | Rejected e' => e = e'
  end ->
  Live.format_stage seen transcriptId net l d =
  (Throw e,
   set_processingProgress 90
     (set_processingStage "Generating subtitles..."
        (set_processingStage "Generating output file..."
           (set_processingProgress 90 d))),
   [Srt (apiKey (seen AtFormat)) transcriptId
        (characterLength (seen AtFormat))]).
Proof.
  intros H1 H2.
  unfold Live.format_stage, Live.produce_output, Live.filename, fetch.
  rewrite H1, H2.
  destruct (srtResponse net) as [[|] body|e'].
  - intros [-> ->]. reflexivity.
  - intros ->. reflexivity.
  - intros ->. reflexivity.
Qed.

(** Whatever the stage downloads is named after the file the ref holds when
    the name is read, with the suffix line 200 chose. *)
Lemma live_format_stage_downloads l d content filename :
  In (Download content filename)
     (issued (Live.format_stage seen transcriptId net l d)) ->
  exists selected,
    audioFile (seen (Live.at_download seen)) = Some selected /\
    filename = (stem (name selected) ++ suffix seen)%string.
Proof.
  unfold Live.format_stage, Live.produce_output, Live.at_download,
    Live.filename, suffix, fetch, downloadFile.
  destruct (String.eqb (status l) "completed"); [| intros []].
  destruct (String.eqb (outputType (seen AtFormat)) "subtitles").
  - destruct (srtResponse net) as [[|] body|e];
      try (cbn; intros [H|[]]; discriminate).
    destruct (audioFile (seen AtCaption)) as [selected|]; cbn.
    + intros [H|[H|[]]]; [discriminate |].
      injection H as _ <-. exists selected. split; reflexivity.
    + intros [H|[]]. discriminate.
  - destruct (result l) as [res|]; [| intros []].
    destruct (audioFile (seen AtFormat)) as [selected|];
      cbn; [| intros []].
    intros [H|[]]. injection H as _ <-. exists selected. split; reflexivity.
Qed.

Lemma live_format_stage_keyed i k l d :
  keyed i seen k (issued (Live.format_stage seen transcriptId net l d)) = true.
Proof.
  unfold Live.format_stage, Live.produce_output, Live.filename, fetch,
    downloadFile.
  destruct (String.eqb (status l) "completed"); [| reflexivity].
  destruct (String.eqb (outputType (seen AtFormat)) "subtitles").
  - destruct (srtResponse net) as [[|] body|e];
      try destruct (audioFile (seen AtCaption));
      cbn; rewrite String.eqb_refl; reflexivity.
  - destruct (result l) as [res|]; [| reflexivity].
    destruct (audioFile (seen AtFormat)); reflexivity.
Qed.

End LiveFormatting.

Lemma count_is_srt_live_polling_trace seen transcriptId n : forall k,
  count is_srt (live_polling_trace seen transcriptId k n) = O.
Proof.
  induction n as [|n IH]; intros k; [reflexivity |].
  cbn [live_polling_trace]. rewrite !count_cons. apply IH.
Qed.

Lemma count_is_download_live_polling_trace seen transcriptId n : forall k,
  count is_download (live_polling_trace seen transcriptId k n) = O.
Proof.
  induction n as [|n IH]; intros k; [reflexivity |].
  cbn [live_polling_trace]. rewrite !count_cons. apply IH.
Qed.

Lemma live_polling_trace_no_download seen transcriptId content filename :
  forall n k,
    ~ In (Download content filename) (live_polling_trace seen transcriptId k n).
Proof.
  induction n as [|n IH]; intros k; [intros [] |].
  cbn [live_polling_trace]. intros [H|[H|H]]; try discriminate.
  apply (IH _ H).
Qed.

Lemma keyed_live_polling_trace i seen transcriptId tl : forall n k,
  keyed i seen k (live_polling_trace seen transcriptId k n ++ tl) =
  keyed i seen (k + n) tl.
Proof.
  induction n as [|n IH]; intros k.
  - cbn. rewrite Nat.add_0_r. reflexivity.
  - cbn [live_polling_trace app keyed]. rewrite String.eqb_refl, IH.
    cbn [andb]. f_equal. lia.
Qed.

(** Every download of every run is named after the file the ref holds when
    the name is read, with the suffix line 200 chose. *)
Lemma live_run_downloads i seen net d content filename :
  In (Download content filename) (issued (Live.processAudio i seen net d)) ->
  exists selected,
    audioFile (seen (Live.at_download seen)) = Some selected /\
    filename = (stem (name selected) ++ suffix seen)%string.
Proof.
  unfold Live.processAudio.
  destruct (falsy (apiKey i)); [intros [] |].
  rewrite bind_issued. unfold saveApiKey.
  cbn [outcome shown issued perform fst snd app].
  intros [H|H]; [discriminate |]. revert H.
  destruct (audioFile i) as [file|]; [| intros []].
  rewrite try_settle, settle_issued.
  destruct (response_cases (uploadResponse net)) as [[u E]|E].
  - destruct (response_cases (transcriptResponse net)) as [[t ET]|ET].
    + rewrite (live_job_submitted i file seen net u t d E ET).
      cbn [issued snd]. intros [H|[H|H]]; try discriminate. revert H.
      rewrite bind_issued, (live_poll_stage seen i).
      cbn [outcome shown issued fst snd]. intros H.
      apply in_app_or in H as [H|H].
      * exfalso. apply (live_polling_trace_no_download _ _ _ _ _ _ H).
      * destruct (outcome (poll_stage i (Json.id t) (pollingResponses net)
                             (submitting (uploading (started d)))))
          as [l|e|]; try contradiction.
        apply (live_format_stage_downloads _ _ _ _ _ _ _ H).
    + destruct (live_job_submit_failed i file seen net u d E ET)
        as [e [_ ->]].
      cbn. intros [H|[H|[]]]; discriminate.
  - destruct (live_job_upload_failed i file seen net d E) as [e [_ ->]].
    cbn. intros [H|[]]; discriminate.
Qed.

Lemma filter_is_download_live_polling_trace seen transcriptId k n :
  filter is_download (live_polling_trace seen transcriptId k n) = [].
Proof.
  revert k. induction n as [|n IH]; intros k; [reflexivity |].
  cbn [live_polling_trace filter is_download]. apply IH.
Qed.

(** A completed run that finds a file selected when it reads the name, and
    an answered caption call when it makes one, downloads one file, named
    after that file. *)
Lemma live_completed_run_downloads i file seen net u t pre rest v selected d :
  falsy (apiKey i) = false ->
  audioFile i = Some file ->
  uploadResponse net = Response true (Json.Value u) ->
  transcriptResponse net = Response true (Json.Value t) ->
  pollingResponses net = pre ++ Response true (Json.Value v) :: rest ->
  forallb keeps_polling pre = true ->
  Json.status v = "completed" ->
  audioFile (seen (Live.at_download seen)) = Some selected ->
  (outputType (seen AtFormat) = "subtitles" ->
   exists body, srtResponse net = Response true body) ->
  exists content,
    filter is_download (issued (Live.processAudio i seen net d)) =
    [Download content (stem (name selected) ++ suffix seen)%string].
Proof.
  intros Hk Hf HU HT HP Hpre Hc Hsel Hsrt.
  assert (Hfinal : in_progress (Json.status v) = false)
    by (rewrite Hc; reflexivity).
  destruct (live_processAudio_polled i file seen net u t pre rest v
              Hk Hf HU HT HP Hpre Hfinal d) as [E _].
  assert (H1 : String.eqb (Json.status v) "completed" = true)
    by (rewrite Hc; reflexivity).
  rewrite E. unfold Live.at_download in Hsel. unfold suffix.
  cbn [issued snd]. rewrite filter_app. unfold live_calls_until_polled.
  cbn [filter is_download]. rewrite filter_is_download_live_polling_trace.
  cbn [app].
  destruct (String.eqb (outputType (seen AtFormat)) "subtitles") eqn:Ho.
  - destruct (Hsrt (proj1 (String.eqb_eq _ _) Ho)) as [body HS].
    rewrite (live_format_stage_subtitles seen (Json.id t) net
               (mkLocals (Some v) (Json.status v)
                  (Z.of_nat (List.length pre) + 1))
               body selected _ H1 Ho HS Hsel).
    exists body. reflexivity.
  - rewrite (live_format_stage_transcript seen (Json.id t) net
               (mkLocals (Some v) (Json.status v)
                  (Z.of_nat (List.length pre) + 1))
               v selected _ H1 Ho eq_refl Hsel).
    exists (Json.text v). reflexivity.
Qed.


(** * The claims *)

(** ** C1: the loop runs until the first response that ends it *)

(** C1. Through every prefix of successful "queued"/"processing" responses
    the polling stage is still suspended, having done one turn (a wait of
    1000 ms, then one status query) per response plus the turn it is waiting
    in; on the first response of another kind (another status, a non-success
    response, a rejection or an unreadable body) it ends there, with as many
    turns as responses consumed, whatever responses would have followed. *)
Theorem polling_stops_at_first_terminal_response :
  forall i transcriptId pre d,
    forallb keeps_polling pre = true ->
    (outcome (poll_stage i transcriptId pre d) = Suspended /\
     issued (poll_stage i transcriptId pre d) =
       polling_trace (apiKey i) transcriptId (S (List.length pre))) /\
    (forall r rest,
       keeps_polling r = false ->
       outcome (poll_stage i transcriptId (pre ++ r :: rest) d) =
         stops_with r (Z.of_nat (List.length pre) + 1) /\
       finished (outcome (poll_stage i transcriptId (pre ++ r :: rest) d))
         = true /\
       issued (poll_stage i transcriptId (pre ++ r :: rest) d) =
         polling_trace (apiKey i) transcriptId (S (List.length pre))).
Proof.
  intros i transcriptId pre d Hpre.
  set (l0 := mkLocals None "processing" 0).
  set (d0 := set_processingStage "Processing audio..."
               (set_processingProgress 50 d)).
  assert (Hl0 : loop_condition l0 = true) by reflexivity.
  destruct (after_pending_locals pre l0 d0 Hpre Hl0) as [Hc Hn].
  split.
  - rewrite poll_stage_unfold. fold l0 d0.
    rewrite (poll_loop_all_pending i transcriptId pre l0 d0 Hpre Hl0).
    split; reflexivity.
  - intros r rest Hr.
    rewrite poll_stage_unfold. fold l0 d0.
    rewrite (poll_loop_pending i transcriptId pre (r :: rest) l0 d0 Hpre Hl0).
    rewrite (poll_loop_last i transcriptId r rest _ _ Hc Hr).
    cbn [outcome shown issued fst snd].
    rewrite Hn. cbn [pollCount l0]. rewrite Z.add_0_l.
    split; [reflexivity |].
    split; [| apply polling_trace_snoc].
    destruct r as [[|] [v|e]|e]; reflexivity.
Qed.

Lemma polling_stops_at_first_terminal_response_witness :
  forallb keeps_polling [answer "queued" ""; answer "processing" ""] = true /\
  keeps_polling (answer "completed" "Hello world") = false /\
  issued (poll_stage sample_inputs "job-1"
            ([answer "queued" ""; answer "processing" ""] ++
             answer "completed" "Hello world" :: [answer "processing" ""])
            initial_display) =
  [Sleep 1000; Status "secret" "job-1";
   Sleep 1000; Status "secret" "job-1";
   Sleep 1000; Status "secret" "job-1"].
Proof.
  split; [reflexivity |]. split; [reflexivity |].
  apply (proj2 (polling_stops_at_first_terminal_response
                  sample_inputs "job-1"
                  [answer "queued" ""; answer "processing" ""]
                  initial_display eq_refl)
               (answer "completed" "Hello world")
               [answer "processing" ""] eq_refl).
Defined.

(** ** C2: how the estimate advances *)

(** C2, counterexample. In the scenario the estimates after the first three
    polls are not 50, 52, 54: the poll that read "queued" was counted
    too, and they are 50, 54, 56. *)
Lemma progress_counts_every_poll :
  ~ (map (progress_after sample_inputs "job-1" scenario initial_display)
         [1; 2; 3]%nat = [50; 52; 54]).
Proof. vm_compute. discriminate. Qed.

(** C2, as the code has it. After a poll that reads "processing" the
    estimate is [min 80 (50 + 2 * n)] where [n] counts every poll made so
    far, those that read "queued" included; after a poll that reads another
    status the estimate is what it was.  In the scenario four status
    queries are issued and the estimates after the polls are 50, 54, 56, 56,
    then 100 at the end of the run. *)
Theorem progress_advances_with_every_poll :
  (forall i transcriptId pre v d,
     forallb keeps_polling pre = true ->
     processingProgress
       (shown (poll_stage i transcriptId
                 (pre ++ [Response true (Json.Value v)]) d)) =
     if String.eqb (Json.status v) "processing"
     then Z.min 80 (50 + 2 * (Z.of_nat (List.length pre) + 1))
     else processingProgress (shown (poll_stage i transcriptId pre d))) /\
  count is_status
    (issued (processAudio sample_inputs (sample_network scenario)
               initial_display)) = 4%nat /\
  map (progress_after sample_inputs "job-1" scenario initial_display)
      [0; 1; 2; 3; 4]%nat = [50; 50; 54; 56; 56] /\
  processingProgress
    (shown (processAudio sample_inputs (sample_network scenario)
              initial_display)) = 100.
Proof.
  split; [| repeat split].
  intros i transcriptId pre v d Hpre.
  rewrite (poll_stage_pending i transcriptId pre d Hpre).
  rewrite poll_stage_unfold.
  rewrite (poll_loop_snoc_shown i transcriptId pre v
             (mkLocals None "processing" 0)
             (set_processingStage "Processing audio..."
                (set_processingProgress 50 d)) Hpre eq_refl).
  rewrite progress_observe. cbn [pollCount shown fst snd].
  unfold polled, polling.
  destruct (String.eqb (Json.status v) "processing"); [| reflexivity].
  f_equal. lia.
Qed.

Lemma progress_advances_with_every_poll_witness :
  processingProgress
    (shown (poll_stage sample_inputs "job-1"
              ([answer "queued" ""] ++ [answer "processing" ""])
              initial_display)) = 54.
Proof.
  apply (proj1 progress_advances_with_every_poll
           sample_inputs "job-1" [answer "queued" ""]
           (Json.mkTranscript "job-1" "processing" "")
           initial_display eq_refl).
Defined.

(** ** C3: the estimate during polling *)

(** C3. The estimate is 50 when polling begins; consuming one more response
    never lowers it; whatever the responses, it stays between 50 and 80
    while the run is in the polling stage.  In a run that passed both
    checks the estimate is above 80 (it is then 90 or 100) only if the loop
    ended on a successful response reporting "completed". *)
Theorem polling_progress_is_monotone_and_capped :
  (forall i transcriptId d,
     processingProgress (shown (poll_stage i transcriptId [] d)) = 50) /\
  (forall i transcriptId polls r d,
     processingProgress (shown (poll_stage i transcriptId polls d)) <=
     processingProgress (shown (poll_stage i transcriptId (polls ++ [r]) d)))
  /\
  (forall i transcriptId polls d,
     50 <= processingProgress (shown (poll_stage i transcriptId polls d))
        <= 80) /\
  (forall i file net d,
     falsy (apiKey i) = false ->
     audioFile i = Some file ->
     80 < processingProgress (shown (processAudio i net d)) ->
     exists pre v rest,
       pollingResponses net = pre ++ Response true (Json.Value v) :: rest /\
       forallb keeps_polling pre = true /\
       Json.status v = "completed").
Proof.
  split; [| split; [| split]].
  - intros i transcriptId d. reflexivity.
  - intros i transcriptId polls r d. rewrite !poll_stage_unfold.
    apply poll_loop_progress_mono, progress_inv_start.
  - intros i transcriptId polls d. apply poll_stage_progress.
  - intros i file net d Hk Hf.
    rewrite (processAudio_job i file net d Hk Hf). cbn [shown fst snd].
    rewrite settle_progress.
    destruct (response_cases (uploadResponse net)) as [[u E]|E].
    + destruct (response_cases (transcriptResponse net)) as [[t ET]|ET].
      * rewrite (job_submitted i file net u t d E ET). cbn [shown fst snd].
        rewrite bind_shown.
        pose proof (poll_stage_progress i (Json.id t) (pollingResponses net)
                      (submitting (uploading (started d)))) as Hp.
        destruct (outcome (poll_stage i (Json.id t) (pollingResponses net)
                             (submitting (uploading (started d)))))
          as [l|e|] eqn:Ho; try lia.
        intros Hbig.
        apply format_stage_progress in Hbig; [| lia].
        destruct (poll_stage_normal_inv i (Json.id t) _ _ l Ho)
          as [pre [v [rest [Epolls [Hpre [_ ->]]]]]].
        exists pre, v, rest. repeat split; assumption.
      * destruct (job_submit_failed i file net u d E ET) as [e [_ ->]].
        cbn. lia.
    + destruct (job_upload_failed i file net d E) as [e [_ ->]].
      cbn. lia.
Qed.

Lemma polling_progress_is_monotone_and_capped_witness :
  exists pre v rest,
    [answer "processing" ""; answer "completed" "Hello world";
     answer "queued" ""] =
      pre ++ Response true (Json.Value v) :: rest /\
    forallb keeps_polling pre = true /\
    Json.status v = "completed".
Proof.
  apply (proj2 (proj2 (proj2 polling_progress_is_monotone_and_capped))
           sample_inputs sample_file
           (sample_network [answer "processing" "";
                            answer "completed" "Hello world";
                            answer "queued" ""])
           initial_display eq_refl eq_refl).
  vm_compute. reflexivity.
Defined.

(** ** C4: a status outside the known ones ends the run with an error *)

(** C4. When the first response that does not report "queued" or
    "processing" reports a status other than "completed" (so every status
    outside queued/processing/completed/error, and "error" too), the run
    stops polling at that response and ends on the failure path: no further
    call is issued, the error message names the status, no success message
    is set and nothing is downloaded. *)
Theorem unexpected_status_fails_the_run :
  forall i file net u t pre rest v d,
    falsy (apiKey i) = false ->
    audioFile i = Some file ->
    uploadResponse net = Response true (Json.Value u) ->
    transcriptResponse net = Response true (Json.Value t) ->
    pollingResponses net = pre ++ Response true (Json.Value v) :: rest ->
    forallb keeps_polling pre = true ->
    Json.status v <> "queued" ->
    Json.status v <> "processing" ->
    Json.status v <> "completed" ->
    let run := processAudio i net d in
    outcome run = Normal tt /\
    issued run = calls_until_polled i file u t pre /\
    errorMessage (shown run) =
      ("Transcription failed with status: " ++ Json.status v)%string /\
    successMessage (shown run) = "" /\
    isLoading (shown run) = false.
Proof.
  intros i file net u t pre rest v d Hk Hf HU HT HP Hpre Hq Hp Hc run.
  assert (Hfinal : in_progress (Json.status v) = false).
  { unfold in_progress. apply orb_false_iff.
    split; apply String.eqb_neq; assumption. }
  destruct (processAudio_polled i file net u t pre rest v
              Hk Hf HU HT HP Hpre Hfinal d) as [E [_ [_ Hs]]].
  subst run. rewrite E.
  rewrite format_stage_failed
    by (cbn [status]; apply String.eqb_neq; exact Hc).
  cbn [settle outcome shown issued fst snd status].
  rewrite app_nil_r. repeat split. exact Hs.
Qed.

Lemma unexpected_status_fails_the_run_witness :
  issued (processAudio sample_inputs
            (sample_network [answer "queued" ""; answer "paused" "";
                             answer "completed" "late"])
            initial_display) =
    [StorageSet "assemblyai_api_key" "secret";
     Upload "secret" sample_file;
     Transcribe "secret" "https://cdn.example/upload/1" "en_us" "slam-1";
     Sleep 1000; Status "secret" "job-1";
     Sleep 1000; Status "secret" "job-1"] /\
  errorMessage (shown (processAudio sample_inputs
            (sample_network [answer "queued" ""; answer "paused" "";
                             answer "completed" "late"])
            initial_display)) = "Transcription failed with status: paused".
Proof.
  pose proof (unexpected_status_fails_the_run
                sample_inputs sample_file
                (sample_network [answer "queued" ""; answer "paused" "";
                                 answer "completed" "late"])
                (Json.mkUpload "https://cdn.example/upload/1")
                (Json.mkTranscript "job-1" "queued" "")
                [answer "queued" ""] [answer "completed" "late"]
                (Json.mkTranscript "job-1" "paused" "")
                initial_display
                eq_refl eq_refl eq_refl eq_refl eq_refl eq_refl) as H.
  cbv zeta in H.
  destruct H as [_ [H1 [H2 _]]]; try discriminate.
  split; [exact H1 | exact H2].
Defined.

(** ** C5: which payloads are uploaded *)

(** C5, counterexample. A selected file of zero bytes is uploaded all the
    same: the run does not end before its first network call. *)
Lemma empty_payload_is_uploaded :
  ~ (size empty_file = 0 ->
     count is_network_call
       (issued (processAudio empty_file_inputs
                  (sample_network [answer "completed" "Hello world"])
                  initial_display)) = 0%nat).
Proof. intros H. specialize (H eq_refl). vm_compute in H. discriminate. Qed.

(** C5, as the code has it. With no file selected the run is rejected with
    "Please select an audio file" before any network call.  A selected file
    is uploaded whatever its size: the first call of the run is the upload,
    carrying the credential and the file, and on a non-success response the
    run fails with "Failed to upload audio file", the upload being its only
    call. *)
Theorem selected_file_is_uploaded_once :
  (forall i net d,
     falsy (apiKey i) = false ->
     audioFile i = None ->
     processAudio i net d =
     (Normal tt, set_errorMessage "Please select an audio file" d,
      [StorageSet API_KEY_STORAGE_KEY (apiKey i)])) /\
  (forall i file net d,
     falsy (apiKey i) = false ->
     audioFile i = Some file ->
     exists tl,
       issued (processAudio i net d) =
       StorageSet API_KEY_STORAGE_KEY (apiKey i)
         :: Upload (apiKey i) file :: tl) /\
  (forall i file net body d,
     falsy (apiKey i) = false ->
     audioFile i = Some file ->
     uploadResponse net = Response false body ->
     processAudio i net d =
     (Normal tt,
      mkDisplay false "Failed to upload audio file" ""
                10 "Uploading audio file...",
      [StorageSet API_KEY_STORAGE_KEY (apiKey i); Upload (apiKey i) file])).
Proof.
  split; [| split].
  - intros i net d Hk Hf. unfold processAudio. rewrite Hk, Hf. reflexivity.
  - intros i file net d Hk Hf.
    rewrite (processAudio_job i file net d Hk Hf). cbn [issued snd].
    rewrite settle_issued.
    destruct (response_cases (uploadResponse net)) as [[u E]|E].
    + rewrite (job_uploaded i file net u d E). cbn [issued snd].
      eexists. reflexivity.
    + destruct (job_upload_failed i file net d E) as [e [_ ->]].
      eexists. reflexivity.
  - intros i file net body d Hk Hf HU.
    rewrite (processAudio_job i file net d Hk Hf).
    destruct (job_upload_failed i file net d) as [e [He ->]].
    { intros u. rewrite HU. discriminate. }
    rewrite HU in He. cbn [upload_outcome] in He. injection He as <-.
    reflexivity.
Qed.

Lemma selected_file_is_uploaded_once_witness :
  processAudio empty_file_inputs
    (mkNetwork (Response false (Json.Malformed NotAnError))
               (answer "queued" "") [] (Response true ""))
    initial_display =
  (Normal tt,
   mkDisplay false "Failed to upload audio file" ""
             10 "Uploading audio file...",
   [StorageSet "assemblyai_api_key" "secret"; Upload "secret" empty_file]).
Proof.
  apply (proj2 (proj2 selected_file_is_uploaded_once)
           empty_file_inputs empty_file
           (mkNetwork (Response false (Json.Malformed NotAnError))
                      (answer "queued" "") [] (Response true ""))
           (Json.Malformed NotAnError) initial_display
           eq_refl eq_refl eq_refl).
Defined.

(** ** C6: the name of the output file *)

(** C6. The stem is the first segment of the display name split on '.':
    the characters before the first '.', and the whole name when it has
    none.  Every file a run hands to the download, whatever the refs, the
    service and the user do, is named by the stem of the display name of
    the file selected when the name is read, followed by ".srt" when line
    200 found the output type "subtitles" and by ".txt" otherwise; and
    every completed run that finds a file selected at that moment (and its
    caption call answered, for subtitles) downloads one file, so named.
    So a completed run on "meeting.recording.mp3" downloads "meeting.txt" as a
    transcript and "meeting.srt" as subtitles, and one on "podcast"
    downloads "podcast.txt". *)
Theorem filename_is_stem_with_suffix :
  (forall display_name, stem display_name = before_first_dot display_name) /\
  (forall display_name,
     contains_dot display_name = false -> stem display_name = display_name) /\
  (forall a b,
     contains_dot a = false -> stem (a ++ String "."%char b)%string = a) /\
  (forall i seen net d content filename,
     In (Download content filename)
        (issued (Live.processAudio i seen net d)) ->
     exists selected,
       audioFile (seen (Live.at_download seen)) = Some selected /\
       filename =
       (stem (name selected) ++
        (if String.eqb (outputType (seen AtFormat)) "subtitles"
         then ".srt" else ".txt"))%string) /\
  (forall i file seen net u t pre rest v selected d,
     falsy (apiKey i) = false ->
     audioFile i = Some file ->
     uploadResponse net = Response true (Json.Value u) ->
     transcriptResponse net = Response true (Json.Value t) ->
     pollingResponses net = pre ++ Response true (Json.Value v) :: rest ->
     forallb keeps_polling pre = true ->
     Json.status v = "completed" ->
     audioFile (seen (Live.at_download seen)) = Some selected ->
     (outputType (seen AtFormat) = "subtitles" ->
      exists body, srtResponse net = Response true body) ->
     exists content,
       filter is_download (issued (Live.processAudio i seen net d)) =
       [Download content
          (stem (name selected) ++
           (if String.eqb (outputType (seen AtFormat)) "subtitles"
            then ".srt" else ".txt"))%string]) /\
  filter is_download
    (issued (Live.processAudio
               (named_inputs "meeting.recording.mp3" "transcript")
               (still (named_inputs "meeting.recording.mp3" "transcript"))
               (sample_network [answer "completed" "Hello"])
               initial_display)) = [Download "Hello" "meeting.txt"] /\
  filter is_download
    (issued (Live.processAudio
               (named_inputs "meeting.recording.mp3" "subtitles")
               (still (named_inputs "meeting.recording.mp3" "subtitles"))
               (subtitles_network (Response true sample_srt))
               initial_display)) = [Download sample_srt "meeting.srt"] /\
  filter is_download
    (issued (Live.processAudio
               (named_inputs "podcast" "transcript")
               (still (named_inputs "podcast" "transcript"))
               (sample_network [answer "completed" "Hello"])
               initial_display)) = [Download "Hello" "podcast.txt"].
Proof.
  split; [exact stem_before_first_dot |].
  split.
  { intros display_name H. rewrite stem_before_first_dot.
    apply before_first_dot_whole, H. }
  split.
  { intros a b H. rewrite stem_before_first_dot.
    apply before_first_dot_prefix, H. }
  split.
  { intros i seen net d content filename H.
    apply (live_run_downloads i seen net d content filename H). }
  split; [| repeat split].
  intros i file seen net u t pre rest v selected d.
  apply live_completed_run_downloads.
Qed.

Lemma filename_is_stem_with_suffix_witness :
  exists selected,
    audioFile (named_inputs "meeting.recording.mp3" "transcript") =
      Some selected /\
    "meeting.txt" = (stem (name selected) ++ ".txt")%string.
Proof.
  apply (proj1 (proj2 (proj2 (proj2 filename_is_stem_with_suffix)))
           (named_inputs "meeting.recording.mp3" "transcript")
           (still (named_inputs "meeting.recording.mp3" "transcript"))
           (sample_network [answer "completed" "Hello"])
           initial_display "Hello" "meeting.txt").
  vm_compute. do 5 right. left. reflexivity.
Defined.

(** ** C7: transcript output *)

(** C7, where the code departs from it. Key "secret", file "interview.wav", output
    type "transcript"; the upload and the submit succeed and the first
    status response reports "completed" with the text "Hello world";
    while the run was polling the user has cleared the file (the clear
    button of line 447 stays enabled during a run).  Line 224 reads
    [audioFile.value.name] again, past the guard of line 100 and the
    awaits, and the run fails on that read: its last effect is the status
    query, nothing is downloaded, the error shown is the message of the
    TypeError, no success message is shown and the estimate stays at 90. *)
Theorem cleared_file_gives_no_transcript :
  let R := Live.processAudio sample_inputs cleared_while_polling
             (sample_network [answer "completed" "Hello world"])
             initial_display in
  outcome R = Normal tt /\
  issued R =
    [StorageSet "assemblyai_api_key" "secret";
     Upload "secret" sample_file;
     Transcribe "secret" "https://cdn.example/upload/1" "en_us" "slam-1";
     Sleep 1000; Status "secret" "job-1"] /\
  count is_download (issued R) = O /\
  shown R =
    mkDisplay false (message_of null_name_error) "" 90
              "Generating output file...".
Proof. vm_compute. repeat split. Qed.

(** ** C8: subtitles output *)

(** C8, where the code departs from it. Key "secret", file "interview.wav", output
    type "subtitles", caption length 32; the upload and the submit succeed,
    the first status response reports "completed" and the caption call
    answers with the caption text of the scenario; while the caption call
    was awaited the user has cleared the file (the clear button of line 447
    stays enabled during a run).  Line 220 reads [audioFile.value.name]
    again, past the guard of line 100 and the awaits, and the run fails on
    that read: the caption call is its last effect, the caption text is not
    downloaded, the error shown is the message of the TypeError and no
    success message is shown. *)
Theorem cleared_file_gives_no_subtitles :
  let R := Live.processAudio subtitles_inputs cleared_during_caption
             (subtitles_network (Response true sample_srt))
             initial_display in
  outcome R = Normal tt /\
  issued R =
    [StorageSet "assemblyai_api_key" "secret";
     Upload "secret" sample_file;
     Transcribe "secret" "https://cdn.example/upload/1" "en_us" "slam-1";
     Sleep 1000; Status "secret" "job-1";
     Srt "secret" "job-1" 32] /\
  count is_download (issued R) = O /\
  shown R =
    mkDisplay false (message_of null_name_error) "" 90
              "Generating subtitles...".
Proof. vm_compute. repeat split. Qed.

(** ** C9: a failed submit ends the run; nothing is retried *)

(** C9. When the submit call gets a non-success response the run ends at
    once with "Failed to submit transcription request": the submit call is
    the last effect, so no status query and no caption call follow.  And no
    run ever repeats a call: at most one upload, one submit and one caption
    call are issued, and the status queries number at most one per response
    that kept the loop polling, plus one. *)
Theorem submit_failure_aborts_the_run :
  (forall i file net u body d,
     falsy (apiKey i) = false ->
     audioFile i = Some file ->
     uploadResponse net = Response true (Json.Value u) ->
     transcriptResponse net = Response false body ->
     processAudio i net d =
     (Normal tt,
      mkDisplay false "Failed to submit transcription request" ""
                30 "Submitting transcription request...",
      [StorageSet API_KEY_STORAGE_KEY (apiKey i);
       Upload (apiKey i) file;
       Transcribe (apiKey i) (Json.upload_url u) "en_us" "slam-1"])) /\
  (forall i net d,
     let t := issued (processAudio i net d) in
     (count is_upload t <= 1)%nat /\
     (count is_transcribe t <= 1)%nat /\
     (count is_srt t <= 1)%nat /\
     (count is_status t <= S (leading_pending (pollingResponses net)))%nat).
Proof.
  split.
  - intros i file net u body d Hk Hf HU HT.
    rewrite (processAudio_job i file net d Hk Hf).
    destruct (job_submit_failed i file net u d HU) as [e [He ->]].
    { intros t. rewrite HT. discriminate. }
    rewrite HT in He. cbn [submit_outcome] in He. injection He as <-.
    reflexivity.
  - intros i net d t. subst t. unfold processAudio.
    destruct (falsy (apiKey i)); [cbn; repeat split; lia |].
    rewrite bind_issued. unfold saveApiKey at 1 2.
    cbn [outcome shown issued perform fst snd app].
    rewrite !count_cons. cbn [is_upload is_transcribe is_srt is_status
      Nat.add].
    destruct (audioFile i) as [file|]; [| cbn; repeat split; lia].
    rewrite try_job, settle_issued. apply job_calls.
Qed.

Lemma submit_failure_aborts_the_run_witness :
  processAudio sample_inputs
    (mkNetwork sample_upload
               (Response false (Json.Malformed NotAnError))
               [answer "completed" "Hello world"] (Response true ""))
    initial_display =
  (Normal tt,
   mkDisplay false "Failed to submit transcription request" ""
             30 "Submitting transcription request...",
   [StorageSet "assemblyai_api_key" "secret";
    Upload "secret" sample_file;
    Transcribe "secret" "https://cdn.example/upload/1" "en_us" "slam-1"]).
Proof.
  apply (proj1 submit_failure_aborts_the_run
           sample_inputs sample_file
           (mkNetwork sample_upload
                      (Response false (Json.Malformed NotAnError))
                      [answer "completed" "Hello world"] (Response true ""))
           (Json.mkUpload "https://cdn.example/upload/1")
           (Json.Malformed NotAnError) initial_display
           eq_refl eq_refl eq_refl eq_refl).
Defined.

(** ** C10: the loading flag *)

(** C10. A run started with the loading flag clear (the button that starts
    a run is disabled while the flag is set) ends with the flag clear,
    whichever way it ends.  The two early rejections leave the flag as it
    was and end the run at once; once both checks have passed the flag is
    set, and it is clear again exactly when the run has ended: a run still
    waiting on the service has it set, a run that ended has it clear,
    whatever the flag was at the start.  Hence, from the creation of the
    component on, the flag is clear whenever no run is in progress. *)
Theorem loading_flag_cleared_when_run_finishes :
  forall i net d,
    (isLoading d = false ->
     finished (outcome (processAudio i net d)) = true ->
     isLoading (shown (processAudio i net d)) = false) /\
    (falsy (apiKey i) = true \/ audioFile i = None ->
     isLoading (shown (processAudio i net d)) = isLoading d /\
     finished (outcome (processAudio i net d)) = true) /\
    (falsy (apiKey i) = false ->
     audioFile i <> None ->
     isLoading (shown (processAudio i net d)) =
     negb (finished (outcome (processAudio i net d)))) /\
    (between_runs d -> isLoading d = false).
Proof.
  assert (Hmain : forall i net d,
    (isLoading d = false ->
     finished (outcome (processAudio i net d)) = true ->
     isLoading (shown (processAudio i net d)) = false) /\
    (falsy (apiKey i) = true \/ audioFile i = None ->
     isLoading (shown (processAudio i net d)) = isLoading d /\
     finished (outcome (processAudio i net d)) = true) /\
    (falsy (apiKey i) = false ->
     audioFile i <> None ->
     isLoading (shown (processAudio i net d)) =
     negb (finished (outcome (processAudio i net d))))); cycle 1.
  { intros i net d.
    split; [apply Hmain |]. split; [apply Hmain |].
    split; [apply Hmain |].
    induction 1 as [|d' i' net' Hd IH Hfin]; [reflexivity |].
    apply (proj1 (Hmain i' net' d') IH Hfin). }
  intros i net d.
  assert (Hearly : falsy (apiKey i) = true \/ audioFile i = None ->
                   isLoading (shown (processAudio i net d)) = isLoading d /\
                   finished (outcome (processAudio i net d)) = true).
  { unfold processAudio. intros [Hk | Hf].
    - rewrite Hk. split; reflexivity.
    - destruct (falsy (apiKey i)); [split; reflexivity |].
      rewrite Hf. split; reflexivity. }
  assert (Hlate : falsy (apiKey i) = false -> audioFile i <> None ->
                  isLoading (shown (processAudio i net d)) =
                  negb (finished (outcome (processAudio i net d)))).
  { intros Hk Hf. destruct (audioFile i) as [file|] eqn:Ef;
      [| contradiction].
    rewrite (processAudio_job i file net d Hk Ef).
    cbn [outcome shown fst snd].
    apply settle_isLoading, job_isLoading. }
  split; [| split; assumption].
  intros Hd Hfin.
  destruct (falsy (apiKey i)) eqn:Hk.
  - destruct Hearly as [-> _]; [left; reflexivity | exact Hd].
  - destruct (audioFile i) as [file|] eqn:Ef.
    + rewrite Hlate by (reflexivity || discriminate).
      rewrite Hfin. reflexivity.
    + destruct Hearly as [-> _]; [right; reflexivity | exact Hd].
Qed.

Lemma loading_flag_cleared_when_run_finishes_witness :
  isLoading
    (shown (processAudio sample_inputs
              (sample_network [answer "processing" ""; answer "error" ""])
              initial_display)) = false.
Proof.
  apply (proj1 (loading_flag_cleared_when_run_finishes
                  sample_inputs
                  (sample_network [answer "processing" ""; answer "error" ""])
                  initial_display)); reflexivity.
Defined.

(** * Further properties of the component *)

(** ** Which effects a run can issue *)

Lemma forallb_polling_trace (p : effect -> bool) key transcriptId n :
  p (Sleep 1000) = true ->
  p (Status key transcriptId) = true ->
  forallb p (polling_trace key transcriptId n) = true.
Proof.
  intros H1 H2. induction n as [|n IH]; [reflexivity |].
  cbn [polling_trace forallb]. rewrite H1, H2, IH. reflexivity.
Qed.

Lemma format_stage_forallb (p : effect -> bool) i file transcriptId net l d :
  p (Srt (apiKey i) transcriptId (characterLength i)) = true ->
  (forall content filename, p (Download content filename) = true) ->
  forallb p (issued (format_stage i file transcriptId net l d)) = true.
Proof.
  intros HS HD. unfold format_stage, produce_output, fetch, downloadFile.
  destruct (String.eqb (status l) "completed"); [| reflexivity].
  destruct (String.eqb (outputType i) "subtitles").
  - destruct (srtResponse net) as [[|] body|e]; cbn;
      rewrite ?HS, ?HD; reflexivity.
  - destruct (result l) as [res|]; cbn; rewrite ?HD; reflexivity.
Qed.

(** A test that accepts every effect the try block can issue accepts all
    the effects of the try block. *)
Lemma job_forallb (p : effect -> bool) i file net d :
  p (Upload (apiKey i) file) = true ->
  (forall u,
     uploadResponse net = Response true (Json.Value u) ->
     p (Transcribe (apiKey i) (Json.upload_url u) "en_us" "slam-1") = true) ->
  (forall t,
     transcriptResponse net = Response true (Json.Value t) ->
     p (Status (apiKey i) (Json.id t)) = true /\
     p (Srt (apiKey i) (Json.id t) (characterLength i)) = true) ->
  p (Sleep 1000) = true ->
  (forall content filename, p (Download content filename) = true) ->
  forallb p (issued (job i file net d)) = true.
Proof.
  intros HU HT HP HS HD.
  destruct (response_cases (uploadResponse net)) as [[u E]|E].
  - destruct (response_cases (transcriptResponse net)) as [[t ET]|ET].
    + rewrite (job_submitted i file net u t d E ET).
      cbn [issued snd forallb]. rewrite HU, (HT u E).
      rewrite bind_issued, forallb_app, poll_stage_issued.
      destruct (HP t ET) as [HP1 HP2].
      rewrite forallb_polling_trace by assumption.
      destruct (outcome (poll_stage i (Json.id t) (pollingResponses net)
                           (submitting (uploading (started d)))))
        as [l|e|]; try reflexivity.
      rewrite format_stage_forallb by assumption. reflexivity.
    + destruct (job_submit_failed i file net u d E ET) as [e [_ ->]].
      cbn [issued snd forallb]. rewrite HU, (HT u E). reflexivity.
  - destruct (job_upload_failed i file net d E) as [e [_ ->]].
    cbn [issued snd forallb]. rewrite HU. reflexivity.
Qed.


Lemma keyed_carries i seen t : forall k,
  (forall m, apiKey (seen m) = apiKey i) ->
  keyed i seen k t = true ->
  forallb (carries_key (apiKey i)) t = true.
Proof.
  induction t as [|ev t IH]; intros k Hsame H; [reflexivity |].
  destruct ev; cbn [keyed] in H; cbn [forallb carries_key];
    try (apply andb_true_iff in H as [Ha H]; rewrite ?Hsame in Ha;
         rewrite Ha);
    cbn [andb]; apply (IH _ Hsame H).
Qed.

Lemma live_run_keyed i seen net d :
  keyed i seen 0 (issued (Live.processAudio i seen net d)) = true.
Proof.
  unfold Live.processAudio.
  destruct (falsy (apiKey i)); [reflexivity |].
  rewrite bind_issued. unfold saveApiKey.
  cbn [outcome shown issued perform fst snd app keyed].
  destruct (audioFile i) as [file|]; [| reflexivity].
  rewrite try_settle, settle_issued.
  destruct (response_cases (uploadResponse net)) as [[u E]|E].
  - destruct (response_cases (transcriptResponse net)) as [[t ET]|ET].
    + rewrite (live_job_submitted i file seen net u t d E ET).
      cbn [issued snd keyed]. rewrite !String.eqb_refl. cbn [andb].
      rewrite bind_issued, (live_poll_stage seen i).
      cbn [outcome shown issued fst snd].
      rewrite keyed_live_polling_trace.
      destruct (outcome (poll_stage i (Json.id t) (pollingResponses net)
                           (submitting (uploading (started d)))))
        as [l|e|]; try reflexivity.
      apply live_format_stage_keyed.
    + destruct (live_job_submit_failed i file seen net u d E ET)
        as [e [_ ->]].
      cbn [issued snd keyed]. rewrite !String.eqb_refl. reflexivity.
  - destruct (live_job_upload_failed i file seen net d E) as [e [_ ->]].
    cbn [issued snd keyed]. rewrite !String.eqb_refl. reflexivity.
Qed.

(** Every network call of every run carries as its Authorization the API
    key as the ref holds it when the call is built: the upload the key of
    the start, the submit the key found after the upload, each status query
    the key its turn of the loop finds, the caption call the key found
    after the last status query.  So in a run during which the key is not
    edited every call carries the one key; and a key retyped while the run
    polls is the key of the queries from then on. *)
Theorem every_call_carries_the_key :
  (forall i seen net d,
     keyed i seen 0 (issued (Live.processAudio i seen net d)) = true) /\
  (forall i seen net d,
     (forall m, apiKey (seen m) = apiKey i) ->
     forallb (carries_key (apiKey i))
             (issued (Live.processAudio i seen net d)) = true) /\
  issued (Live.processAudio sample_inputs key_retyped_while_polling
            (sample_network [answer "processing" "";
                             answer "completed" "Hello world"])
            initial_display) =
  [StorageSet "assemblyai_api_key" "secret";
   Upload "secret" sample_file;
   Transcribe "secret" "https://cdn.example/upload/1" "en_us" "slam-1";
   Sleep 1000; Status "secret" "job-1";
   Sleep 1000; Status "other" "job-1";
   Download "Hello world" "interview.txt"].
Proof.
  split; [exact live_run_keyed |]. split; [| reflexivity].
  intros i seen net d Hsame.
  apply (keyed_carries i seen _ 0%nat Hsame), live_run_keyed.
Qed.

Lemma every_call_carries_the_key_witness :
  forallb (carries_key "secret")
    (issued (Live.processAudio sample_inputs renamed_while_polling
               (sample_network [answer "processing" "";
                                answer "completed" "Hello world"])
               initial_display)) = true.
Proof.
  apply (proj1 (proj2 every_call_carries_the_key)
           sample_inputs renamed_while_polling
           (sample_network [answer "processing" "";
                            answer "completed" "Hello world"])
           initial_display).
  intros [| k | |]; reflexivity.
Defined.


(** ** The API key in localStorage *)

Lemma stored_not_storage t st :
  forallb not_storage t = true -> stored t st = st.
Proof.
  revert st. induction t as [|ev t IH]; intros st H; [reflexivity |].
  cbn [forallb] in H. apply andb_true_iff in H as [Hev Ht].
  destruct ev; try discriminate; cbn [stored]; apply IH, Ht.
Qed.

Lemma job_stored i file net d st :
  stored (issued (job i file net d)) st = st.
Proof.
  apply stored_not_storage. apply job_forallb; try reflexivity.
  intros t _. split; reflexivity.
Qed.

(** A run with a non-empty API key writes it to localStorage under
    "assemblyai_api_key" and writes nothing else, whether or not a file is
    selected and however the run goes on; a run with an empty key leaves
    localStorage as it was.  A component mounted on the storage a run with a
    key left behind starts with that key. *)
Theorem api_key_survives_reload :
  forall i net d st c,
    (falsy (apiKey i) = true ->
     stored (issued (processAudio i net d)) st = st) /\
    (falsy (apiKey i) = false ->
     stored (issued (processAudio i net d)) st =
       setItem st API_KEY_STORAGE_KEY (apiKey i) /\
     fields (onMounted (stored (issued (processAudio i net d)) st) c) =
       set_apiKey (apiKey i) (fields c)).
Proof.
  intros i net d st c. split.
  - intros Hk. unfold processAudio. rewrite Hk. reflexivity.
  - intros Hk.
    assert (E : stored (issued (processAudio i net d)) st =
                setItem st API_KEY_STORAGE_KEY (apiKey i)).
    { unfold processAudio. rewrite Hk. rewrite bind_issued.
      unfold saveApiKey at 1 2.
      cbn [outcome shown issued perform fst snd app stored].
      destruct (audioFile i) as [file|]; [| reflexivity].
      rewrite try_job, settle_issued. apply job_stored. }
    split; [exact E |]. rewrite E.
    unfold onMounted, getItem, setItem. rewrite String.eqb_refl, Hk.
    reflexivity.
Qed.

Lemma api_key_survives_reload_witness :
  apiKey (fields (onMounted
            (stored (issued (processAudio sample_inputs
                               (sample_network [answer "error" ""])
                               initial_display))
                    (fun _ => None))
            created)) = "secret".
Proof.
  pose proof (proj2 (api_key_survives_reload sample_inputs
                       (sample_network [answer "error" ""])
                       initial_display (fun _ => None) created)
                    eq_refl) as [_ H].
  rewrite H. reflexivity.
Defined.

(** ** How a run ends *)

Lemma bind_outcome {A B} (m : Async A) (k : A -> Async B) d :
  outcome (bind m k d) =
  match outcome (m d) with
  | Normal a => outcome (k a (shown (m d)))
  | Throw e => Throw e
  | Suspended => Suspended
  end.
Proof.
  unfold bind, outcome, shown.
  destruct (m d) as [[[a|e|] d1] t1]; cbn [fst snd]; try reflexivity.
  destruct (k a d1) as [[c d2] t2]. reflexivity.
Qed.

Lemma count_is_download_polling_trace key transcriptId n :
  count is_download (polling_trace key transcriptId n) = O.
Proof.
  induction n as [|n IH]; [reflexivity |].
  cbn [polling_trace]. rewrite !count_cons. exact IH.
Qed.

(** The formatting stage completes, with one download, or throws, with
    none and without touching the flag or the messages. *)
Lemma format_stage_cases i file transcriptId net l d :
  let F := format_stage i file transcriptId net l d in
  (outcome F = Normal tt /\ shown F = completed_display i d /\
   count is_download (issued F) = 1%nat) \/
  ((exists e, outcome F = Throw e) /\ same_flags (shown F) d /\
   count is_download (issued F) = O).
Proof.
  unfold format_stage, produce_output, fetch, downloadFile.
  destruct (String.eqb (status l) "completed").
  - destruct (String.eqb (outputType i) "subtitles").
    + destruct (srtResponse net) as [[|] body|e]; cbn.
      * left. repeat split.
      * right. split; [eexists; reflexivity | repeat split].
      * right. split; [eexists; reflexivity | repeat split].
    + destruct (result l) as [res|]; cbn.
      * left. repeat split.
      * right. split; [eexists; reflexivity | repeat split].
  - right. split; [eexists; reflexivity | repeat split].
Qed.

(** The try block completes, with the display of success and one download,
    or it does not, with the flag set, both messages empty and no
    download. *)
Lemma job_cases i file net d :
  let J := job i file net d in
  (outcome J = Normal tt /\
   shown J = mkDisplay true ""
               ("Your " ++ outputType i ++
                " has been successfully processed and downloaded!")%string
               100 "Complete!" /\
   count is_download (issued J) = 1%nat) \/
  (outcome J <> Normal tt /\ same_flags (shown J) (started d) /\
   count is_download (issued J) = O).
Proof.
  destruct (response_cases (uploadResponse net)) as [[u E]|E].
  - destruct (response_cases (transcriptResponse net)) as [[t ET]|ET].
    + rewrite (job_submitted i file net u t d E ET).
      cbn [outcome shown issued fst snd]. rewrite !count_cons.
      cbn [is_download Nat.add].
      rewrite bind_outcome, bind_shown, bind_issued, count_app.
      rewrite poll_stage_issued, count_is_download_polling_trace.
      pose proof (poll_stage_same_flags i (Json.id t) (pollingResponses net)
                    (submitting (uploading (started d)))) as Hp.
      assert (Hs : same_flags (submitting (uploading (started d)))
                              (started d)) by (repeat split).
      pose proof (same_flags_trans _ _ _ Hp Hs) as Hflags.
      destruct (outcome (poll_stage i (Json.id t) (pollingResponses net)
                           (submitting (uploading (started d)))))
        as [l|e|].
      * destruct (format_stage_cases i file (Json.id t) net l
                    (shown (poll_stage i (Json.id t) (pollingResponses net)
                              (submitting (uploading (started d))))))
          as [[F1 [F2 F3]] | [[e F1] [F2 F3]]].
        -- left. rewrite F1, F2, F3. split; [reflexivity |].
           split; [| reflexivity].
           destruct Hflags as [H1 [H2 _]]. unfold completed_display.
           rewrite H1, H2. reflexivity.
        -- right. rewrite F1, F3. split; [discriminate |].
           split; [| reflexivity].
           eapply same_flags_trans; [exact F2 | exact Hflags].
      * right. split; [discriminate |]. split; [exact Hflags | reflexivity].
      * right. split; [discriminate |]. split; [exact Hflags | reflexivity].
    + destruct (job_submit_failed i file net u d E ET) as [e [_ ->]].
      right. split; [discriminate |]. repeat split.
  - destruct (job_upload_failed i file net d E) as [e [_ ->]].
    right. split; [discriminate |]. repeat split.
Qed.





(** ** Failures of the calls *)

(** However the upload call fails (a non-success response, a rejected
    request, an unreadable body), the run ends with the upload as its only
    call, and the error shown is the message of what was thrown, or "An
    unknown error occurred" when that is no Error.  The same holds for the
    submit call, one call later. *)
Theorem failed_call_ends_the_run_with_its_message :
  (forall i file net d e,
     falsy (apiKey i) = false ->
     audioFile i = Some file ->
     upload_outcome (uploadResponse net) = Throw e ->
     processAudio i net d =
     (Normal tt,
      mkDisplay false (message_of e) "" 10 "Uploading audio file...",
      [StorageSet API_KEY_STORAGE_KEY (apiKey i); Upload (apiKey i) file])) /\
  (forall i file net u d e,
     falsy (apiKey i) = false ->
     audioFile i = Some file ->
     uploadResponse net = Response true (Json.Value u) ->
     submit_outcome (transcriptResponse net) = Throw e ->
     processAudio i net d =
     (Normal tt,
      mkDisplay false (message_of e) "" 30
                "Submitting transcription request...",
      [StorageSet API_KEY_STORAGE_KEY (apiKey i); Upload (apiKey i) file;
       Transcribe (apiKey i) (Json.upload_url u) "en_us" "slam-1"])).
Proof.
  split.
  - intros i file net d e Hk Hf He.
    rewrite (processAudio_job i file net d Hk Hf).
    destruct (job_upload_failed i file net d) as [e' [He' ->]].
    { intros u Eu. rewrite Eu in He. discriminate. }
    rewrite He in He'. injection He' as <-. destruct e; reflexivity.
  - intros i file net u d e Hk Hf HU He.
    rewrite (processAudio_job i file net d Hk Hf).
    destruct (job_submit_failed i file net u d HU) as [e' [He' ->]].
    { intros t Et. rewrite Et in He. discriminate. }
    rewrite He in He'. injection He' as <-. destruct e; reflexivity.
Qed.

Lemma failed_call_ends_the_run_with_its_message_witness :
  processAudio sample_inputs
    (mkNetwork (Rejected NotAnError) (answer "queued" "") [] (Response true ""))
    initial_display =
  (Normal tt,
   mkDisplay false "An unknown error occurred" "" 10 "Uploading audio file...",
   [StorageSet "assemblyai_api_key" "secret"; Upload "secret" sample_file]).
Proof.
  apply (proj1 failed_call_ends_the_run_with_its_message
           sample_inputs sample_file
           (mkNetwork (Rejected NotAnError) (answer "queued" "") []
                      (Response true ""))
           initial_display NotAnError eq_refl eq_refl eq_refl).
Defined.

(** When a status query fails (a non-success response, a rejected request,
    an unreadable body) after any number of "queued"/"processing"
    responses, the run ends there: no further query, no caption call, no
    download; the error is "Failed to check transcription status" for a
    non-success response and the message of what was thrown otherwise; the
    flag is clear and no success message is shown. *)
Theorem failed_poll_ends_the_run :
  forall i file net u t pre r rest d e,
    falsy (apiKey i) = false ->
    audioFile i = Some file ->
    uploadResponse net = Response true (Json.Value u) ->
    transcriptResponse net = Response true (Json.Value t) ->
    pollingResponses net = pre ++ r :: rest ->
    forallb keeps_polling pre = true ->
    stops_with r 0 = Throw e ->
    let R := processAudio i net d in
    outcome R = Normal tt /\
    issued R = calls_until_polled i file u t pre /\
    errorMessage (shown R) = message_of e /\
    successMessage (shown R) = "" /\
    isLoading (shown R) = false /\
    (forall body, r = Response false body ->
       errorMessage (shown R) = "Failed to check transcription status").
Proof.
  intros i file net u t pre r rest d e Hk Hf HU HT HP Hpre He R. subst R.
  assert (Hr : keeps_polling r = false).
  { destruct r as [[|] [v|e']|e']; try reflexivity. discriminate. }
  assert (Hstop : forall n, stops_with r n = Throw e).
  { intros n. destruct r as [[|] [v|e']|e']; try exact He. discriminate. }
  rewrite (processAudio_job i file net d Hk Hf).
  rewrite (job_submitted i file net u t d HU HT). rewrite HP.
  pose proof (poll_stage_same_flags i (Json.id t) (pre ++ r :: rest)
                (submitting (uploading (started d)))) as [_ [_ H3]].
  rewrite (poll_stage_stops i (Json.id t) pre r rest _ Hpre Hr) in H3.
  erewrite bind_throw
    by (rewrite (poll_stage_stops i (Json.id t) pre r rest _ Hpre Hr),
          Hstop; reflexivity).
  cbn [outcome shown issued fst snd settle] in *.
  split; [reflexivity |]. split; [reflexivity |].
  split; [destruct e; reflexivity |].
  split; [exact H3 |]. split; [reflexivity |].
  intros body ->. cbn in He. injection He as <-. reflexivity.
Qed.

Lemma failed_poll_ends_the_run_witness :
  errorMessage
    (shown (processAudio sample_inputs
              (sample_network [answer "processing" "";
                               Response false (Json.Malformed NotAnError);
                               answer "completed" "Hello world"])
              initial_display)) = "Failed to check transcription status".
Proof.
  pose proof (failed_poll_ends_the_run sample_inputs sample_file
                (sample_network [answer "processing" "";
                                 Response false (Json.Malformed NotAnError);
                                 answer "completed" "Hello world"])
                (Json.mkUpload "https://cdn.example/upload/1")
                (Json.mkTranscript "job-1" "queued" "")
                [answer "processing" ""]
                (Response false (Json.Malformed NotAnError))
                [answer "completed" "Hello world"]
                initial_display
                (ErrorObj "Failed to check transcription status")
                eq_refl eq_refl eq_refl eq_refl eq_refl eq_refl eq_refl) as H.
  cbv zeta in H. destruct H as [_ [_ [H _]]]. exact H.
Defined.

(** ** The display during polling *)

Lemma reports_queued_keeps_polling pre :
  forallb reports_queued pre = true -> forallb keeps_polling pre = true.
Proof.
  induction pre as [|r pre IH]; [reflexivity |].
  cbn [forallb]. intros H. apply andb_true_iff in H as [Hr Hpre].
  rewrite (IH Hpre), andb_true_r.
  destruct r as [[|] [v|e]|e]; try discriminate.
  cbn in Hr |- *. unfold in_progress. rewrite Hr. apply orb_true_r.
Qed.

Lemma after_pending_queued pre : forall l d,
  forallb reports_queued pre = true -> snd (after_pending pre l d) = d.
Proof.
  induction pre as [|r pre IH]; intros l d H; [reflexivity |].
  cbn [forallb] in H. apply andb_true_iff in H as [Hr Hpre].
  destruct r as [[|] [v|e]|e]; try discriminate.
  cbn [after_pending]. rewrite IH by exact Hpre.
  cbn in Hr. apply String.eqb_eq in Hr. unfold observe. rewrite Hr.
  reflexivity.
Qed.

(** While the service only ever reports "queued" the display stays exactly
    as it was at loop entry, estimate 50 and label "Processing audio...",
    however many polls are made. *)
Theorem queued_polls_leave_the_display :
  forall i transcriptId pre d,
    forallb reports_queued pre = true ->
    poll_stage i transcriptId pre d =
    (Suspended, polling d,
     polling_trace (apiKey i) transcriptId (S (List.length pre))).
Proof.
  intros i transcriptId pre d H.
  rewrite (poll_stage_pending i transcriptId pre d
             (reports_queued_keeps_polling pre H)).
  unfold polled. rewrite after_pending_queued by exact H. reflexivity.
Qed.

Lemma queued_polls_leave_the_display_witness :
  shown (poll_stage sample_inputs "job-1"
           [answer "queued" ""; answer "queued" ""; answer "queued" ""]
           initial_display) =
  mkDisplay false "" "" 50 "Processing audio...".
Proof.
  rewrite (queued_polls_leave_the_display sample_inputs "job-1"
             [answer "queued" ""; answer "queued" ""; answer "queued" ""]
             initial_display eq_refl).
  reflexivity.
Defined.

Lemma label_fits_observe s n d :
  label_fits d -> label_fits (observe s n d).
Proof.
  unfold observe. destruct (String.eqb s "processing"); [| tauto].
  intros _. right. reflexivity.
Qed.

Lemma poll_loop_label_fits i transcriptId polls : forall l d,
  label_fits d -> label_fits (shown (poll_loop i transcriptId polls l d)).
Proof.
  induction polls as [|r polls IH]; intros l d H.
  - rewrite poll_loop_nil_shown. exact H.
  - destruct (loop_condition l) eqn:Hl.
    + destruct r as [[|] [v|e]|e];
        try (rewrite poll_loop_stop;
             [exact H | exact Hl | intros v'; discriminate]).
      rewrite (poll_loop_value i transcriptId v polls l d Hl).
      cbn [shown fst snd]. apply IH, label_fits_observe, H.
    + rewrite poll_loop_exit by exact Hl. exact H.
Qed.

(** Throughout polling the stage label agrees with the estimate: it is the
    plain "Processing audio..." with the estimate at 50, or it quotes the
    current estimate as a percentage. *)
Theorem polling_label_quotes_the_estimate :
  forall i transcriptId polls d,
    label_fits (shown (poll_stage i transcriptId polls d)).
Proof.
  intros i transcriptId polls d. rewrite poll_stage_unfold.
  apply poll_loop_label_fits. left. split; reflexivity.
Qed.

(** ** The handlers of the user interface *)

Lemma handle_audio_typed ev c :
  picks_audio ev = true ->
  audio_typed (audioFile (fields c)) = true ->
  audio_typed (audioFile (fields (handle ev c))) = true.
Proof.
  destruct ev as [| | |files|files| | |s| | |n];
    cbn [handle picks_audio]; try (intros _ H; exact H).
  - intros _ H. destruct files as [[|file rest]|]; try exact H.
    unfold handleDrop.
    destruct (String.prefix "audio/" (type file)) eqn:E; [exact E | exact H].
  - intros Hp H. destruct files as [[|file rest]|]; try exact H. exact Hp.
  - intros _ _. reflexivity.
Qed.

Lemma session_audio_typed evs : forall c,
  forallb picks_audio evs = true ->
  audio_typed (audioFile (fields c)) = true ->
  audio_typed (audioFile (fields (session evs c))) = true.
Proof.
  unfold session. induction evs as [|ev evs IH]; intros c Hevs Hc;
    [exact Hc |].
  cbn [forallb] in Hevs. apply andb_true_iff in Hevs as [Hev Hevs].
  cbn [fold_left]. apply IH; [exact Hevs |].
  apply handle_audio_typed; assumption.
Qed.

(** Dropped files are checked by the component itself, and only the first
    of them counts.  Whatever else was dropped with it, a drop does what
    the drop of its first file alone does; when that file declares no audio
    type the selection stays as it was and the error "Please select an
    audio file (MP3, WAV, etc.)" is shown, even if an audio file came
    second.  So through any sequence of events of the user interface in
    which the picks through the file input are audio files, the selected
    file, if there is one, declares a MIME type starting with "audio/". *)
Theorem selection_stays_audio :
  (forall file others c,
     handleDrop (Some (file :: others)) c = handleDrop (Some [file]) c) /\
  (forall file others c,
     String.prefix "audio/" (type file) = false ->
     audioFile (fields (handleDrop (Some (file :: others)) c)) =
       audioFile (fields c) /\
     errorMessage (panel (handleDrop (Some (file :: others)) c)) =
       "Please select an audio file (MP3, WAV, etc.)") /\
  (forall file others c,
     String.prefix "audio/" (type file) = true ->
     audioFile (fields (handleDrop (Some (file :: others)) c)) = Some file /\
     errorMessage (panel (handleDrop (Some (file :: others)) c)) = "") /\
  (forall evs,
     forallb picks_audio evs = true ->
     audio_typed (audioFile (fields (session evs created))) = true).
Proof.
  split; [reflexivity |]. split; [| split].
  - intros file others c H. unfold handleDrop. rewrite H. split; reflexivity.
  - intros file others c H. unfold handleDrop. rewrite H. split; reflexivity.
  - intros evs H. apply session_audio_typed; [exact H | reflexivity].
Qed.

Lemma selection_stays_audio_witness :
  audioFile
    (fields (handleDrop
               (Some [mkFile "notes.txt" "text/plain" []; sample_file])
               created)) = None /\
  audio_typed
    (audioFile
       (fields (session
                  [DragEnter; Drop (Some [sample_file]); TypeApiKey "secret";
                   Drop (Some [mkFile "notes.txt" "text/plain" [];
                               sample_file]);
                   ChooseSubtitles; FileChange (Some [sample_file])]
                  created))) = true.
Proof.
  split.
  - apply (proj1 (proj2 selection_stays_audio)
             (mkFile "notes.txt" "text/plain" []) [sample_file] created
             eq_refl).
  - apply (proj2 (proj2 (proj2 selection_stays_audio))
             [DragEnter; Drop (Some [sample_file]); TypeApiKey "secret";
              Drop (Some [mkFile "notes.txt" "text/plain" []; sample_file]);
              ChooseSubtitles; FileChange (Some [sample_file])]
             eq_refl).
Defined.

Lemma handle_run_state ev c :
  panel (handle ev c) = panel c \/
  exists s, panel (handle ev c) = set_errorMessage s (panel c).
Proof.
  destruct ev as [| | |files|files| | |s| | |n]; cbn [handle];
    try (left; reflexivity).
  - destruct files as [[|file rest]|]; try (left; reflexivity).
    unfold handleDrop. destruct (String.prefix "audio/" (type file));
      right; eexists; reflexivity.
  - destruct files as [[|file rest]|]; try (left; reflexivity).
    right. eexists. reflexivity.
Qed.

Lemma session_run_state evs : forall c,
  isLoading (panel (session evs c)) = isLoading (panel c) /\
  successMessage (panel (session evs c)) = successMessage (panel c) /\
  processingProgress (panel (session evs c)) = processingProgress (panel c) /\
  processingStage (panel (session evs c)) = processingStage (panel c).
Proof.
  unfold session. induction evs as [|ev evs IH]; intros c;
    [repeat split |].
  cbn [fold_left].
  destruct (IH (handle ev c)) as [I1 [I2 [I3 I4]]].
  rewrite I1, I2, I3, I4.
  destruct (handle_run_state ev c) as [-> | [s ->]]; repeat split.
Qed.

(** A run that ends leaves the flag clear, when it found it clear. *)
Lemma ended_run_clears_flag i net d :
  isLoading d = false ->
  finished (outcome (processAudio i net d)) = true ->
  isLoading (shown (processAudio i net d)) = false.
Proof.
  intros Hd. destruct (falsy (apiKey i)) eqn:Hk.
  - unfold processAudio. rewrite Hk. intros _. exact Hd.
  - destruct (audioFile i) as [file|] eqn:Hf.
    + rewrite (processAudio_job i file net d Hk Hf).
      cbn [outcome shown fst snd].
      rewrite (settle_isLoading _ (job_isLoading i file net d)).
      intros ->. reflexivity.
    + unfold processAudio. rewrite Hk, Hf. intros _. exact Hd.
Qed.

Lemma play_clears_flag acts : forall c,
  isLoading (panel c) = false ->
  all_ended acts c = true ->
  isLoading (panel (play acts c)) = false.
Proof.
  unfold play. induction acts as [|a acts IH]; intros c Hc Hall;
    [exact Hc |].
  cbn [all_ended] in Hall. apply andb_true_iff in Hall as [Ha Hall].
  cbn [fold_left]. apply IH; [| exact Hall].
  destruct a as [ev|net]; cbn [act].
  - destruct (handle_run_state ev c) as [-> | [s ->]]; exact Hc.
  - unfold click. rewrite Hc in Ha |- *. cbn [orb] in Ha.
    cbn [fst with_panel panel].
    apply ended_run_clears_flag; assumption.
Qed.

(** Only [processAudio] writes the loading flag, the success message, the
    estimate and the stage label: no event of the user interface, the
    edits of the key, the output type and the caption length included,
    changes any of them.  Hence, from the creation of the component,
    through any sequence of such events and of clicks on the button whose
    runs have ended, the flag is clear, and the button is enabled again. *)
Theorem ui_events_leave_the_run_state :
  (forall evs c,
     isLoading (panel (session evs c)) = isLoading (panel c) /\
     successMessage (panel (session evs c)) = successMessage (panel c) /\
     processingProgress (panel (session evs c)) =
       processingProgress (panel c) /\
     processingStage (panel (session evs c)) = processingStage (panel c)) /\
  (forall acts,
     all_ended acts created = true ->
     isLoading (panel (play acts created)) = false).
Proof.
  split; [intros evs c; apply session_run_state |].
  intros acts H. apply play_clears_flag; [reflexivity | exact H].
Qed.

Lemma ui_events_leave_the_run_state_witness :
  isLoading
    (panel (play [Ui (TypeApiKey "secret");
                  Ui (Drop (Some [sample_file]));
                  Press (sample_network [answer "error" ""]);
                  Ui ChooseSubtitles;
                  Ui (TypeCharacterLength (Rendered ""));
                  Press (subtitles_network (Response false ""))]
                 created)) = false.
Proof.
  apply (proj2 ui_events_leave_the_run_state
           [Ui (TypeApiKey "secret");
            Ui (Drop (Some [sample_file]));
            Press (sample_network [answer "error" ""]);
            Ui ChooseSubtitles;
            Ui (TypeCharacterLength (Rendered ""));
            Press (subtitles_network (Response false ""))]).
  vm_compute. reflexivity.
Defined.

Lemma processAudio_uploads i file net d :
  falsy (apiKey i) = false ->
  audioFile i = Some file ->
  exists tl,
    issued (processAudio i net d) =
    StorageSet API_KEY_STORAGE_KEY (apiKey i) :: Upload (apiKey i) file :: tl.
Proof.
  intros Hk Hf.
  rewrite (processAudio_job i file net d Hk Hf). cbn [issued snd].
  rewrite settle_issued.
  destruct (response_cases (uploadResponse net)) as [[u E]|E].
  - rewrite (job_uploaded i file net u d E). eexists. reflexivity.
  - destruct (job_upload_failed i file net d E) as [e [_ ->]].
    eexists. reflexivity.
Qed.

(** A file picked through the file input is not checked at all: whatever
    MIME type it declares, it becomes the selection, and the next click on
    the button, given a key, uploads it. *)
Theorem picked_file_is_uploaded_unchecked :
  forall file others c net,
    isLoading (panel c) = false ->
    falsy (apiKey (fields c)) = false ->
    audioFile (fields (handleFileChange (Some (file :: others)) c)) =
      Some file /\
    exists tl,
      snd (click net (handleFileChange (Some (file :: others)) c)) =
      StorageSet API_KEY_STORAGE_KEY (apiKey (fields c))
        :: Upload (apiKey (fields c)) file :: tl.
Proof.
  intros file others c net Hl Hk. split; [reflexivity |].
  unfold click. cbn [handleFileChange with_panel with_fields panel fields
    set_errorMessage isLoading]. rewrite Hl. cbn [snd].
  apply (processAudio_uploads
           (set_audioFile (Some file) (fields c)) file net); [exact Hk |].
  reflexivity.
Qed.

Lemma picked_file_is_uploaded_unchecked_witness :
  exists tl,
    snd (click (sample_network [])
           (handleFileChange
              (Some [mkFile "notes.txt" "text/plain" [Byte.x68; Byte.x69]])
              (mkComponent sample_inputs initial_display false false))) =
    StorageSet "assemblyai_api_key" "secret"
      :: Upload "secret" (mkFile "notes.txt" "text/plain" [Byte.x68; Byte.x69])
      :: tl.
Proof.
  apply (picked_file_is_uploaded_unchecked
           (mkFile "notes.txt" "text/plain" [Byte.x68; Byte.x69]) []
           (mkComponent sample_inputs initial_display false false)
           (sample_network []) eq_refl eq_refl).
Defined.

Lemma processAudio_downloaded i file net d :
  falsy (apiKey i) = false ->
  audioFile i = Some file ->
  count is_download (issued (processAudio i net d)) = 1%nat ->
  shown (processAudio i net d) =
  mkDisplay false ""
    ("Your " ++ outputType i ++
     " has been successfully processed and downloaded!")%string
    100 "Complete!".
Proof.
  intros Hk Hf.
  rewrite (processAudio_job i file net d Hk Hf).
  cbn [shown issued fst snd]. rewrite count_cons, settle_issued.
  cbn [is_download Nat.add].
  destruct (job_cases i file net d) as [[J1 [J2 J3]] | [J1 [J2 J3]]].
  - intros _. rewrite (result_eta (job i file net d)), J1, J2. reflexivity.
  - rewrite J3. discriminate.
Qed.

(** The early rejections clear nothing: when a run has succeeded, the file
    is then cleared and the button clicked again, the rejection "Please
    select an audio file" is shown together with the success message, the
    estimate 100 and the label "Complete!" of the run before. *)
Theorem rejection_keeps_the_previous_success :
  forall c net1 net2 file,
    isLoading (panel c) = false ->
    falsy (apiKey (fields c)) = false ->
    audioFile (fields c) = Some file ->
    count is_download (snd (click net1 c)) = 1%nat ->
    click net2 (clearFile (fst (click net1 c))) =
    (mkComponent
       (set_audioFile None (fields c))
       (mkDisplay false "Please select an audio file"
          ("Your " ++ outputType (fields c) ++
           " has been successfully processed and downloaded!")%string
          100 "Complete!")
       (apiKeyVisible c) (dragActive c),
     [StorageSet API_KEY_STORAGE_KEY (apiKey (fields c))]).
Proof.
  intros c net1 net2 file Hl Hk Hf. unfold click at 1 3. rewrite Hl.
  cbn [fst snd]. intros Hd.
  pose proof (processAudio_downloaded (fields c) file net1 (panel c)
                Hk Hf Hd) as E.
  unfold click, clearFile, with_fields, with_panel.
  cbn [panel fields apiKeyVisible dragActive]. rewrite E.
  cbn [isLoading]. unfold processAudio.
  cbn [set_audioFile apiKey audioFile]. rewrite Hk. reflexivity.
Qed.

Lemma rejection_keeps_the_previous_success_witness :
  panel (fst (click (sample_network [])
                (clearFile
                   (fst (click (sample_network [answer "completed" "Hi"])
                           (mkComponent sample_inputs initial_display
                                        false false)))))) =
  mkDisplay false "Please select an audio file"
    "Your transcript has been successfully processed and downloaded!"
    100 "Complete!".
Proof.
  rewrite (rejection_keeps_the_previous_success
             (mkComponent sample_inputs initial_display false false)
             (sample_network [answer "completed" "Hi"]) (sample_network [])
             sample_file eq_refl eq_refl eq_refl eq_refl).
  reflexivity.
Defined.

(** ** The size label *)

Lemma hundredths_nearest num den :
  0 < den ->
  - den < 2 * (den * hundredths num den - 100 * num) <= den.
Proof.
  intros Hden. unfold hundredths.
  pose proof (Z.div_mod (200 * num + den) (2 * den) ltac:(lia)) as E.
  pose proof (Z.mod_pos_bound (200 * num + den) (2 * den) ltac:(lia)) as B.
  lia.
Qed.

Lemma hundredths_mono num1 num2 den :
  0 < den -> num1 <= num2 -> hundredths num1 den <= hundredths num2 den.
Proof.
  intros Hden Hle. unfold hundredths. apply Z.div_le_mono; lia.
Qed.

(** The size label shows the size in units of 1024 bytes, marked KB, for a
    file under 1024 * 1024 bytes and in units of 1024 * 1024 bytes, marked
    MB, otherwise.  The number shown, in hundredths, is the integer nearest
    to a hundred times the size in that unit, the larger one of two equally
    near, so it is off by at most half a hundredth; and within one unit a
    larger file never shows a smaller number.  With no file selected the
    label is empty. *)
Theorem size_label_is_the_nearest_hundredth :
  (forall c, audioFile (fields c) = None -> fileSize c = "") /\
  (forall c f, audioFile (fields c) = Some f ->
     fileSize c = size_label (size f) /\ 0 <= size f) /\
  (forall z,
     let unit := if z <? 1024 * 1024 then 1024 else 1024 * 1024 in
     let n := hundredths z unit in
     size_label z =
       ((number_to_string (n / 100) ++ "." ++ two_digits (n mod 100)) ++
        (if (z <? 1024 * 1024)%Z then " KB" else " MB"))%string /\
     - unit < 2 * (unit * n - 100 * z) <= unit) /\
  (forall z1 z2 unit,
     0 < unit -> z1 <= z2 -> hundredths z1 unit <= hundredths z2 unit).
Proof.
  split; [| split; [| split]].
  - intros c H. unfold fileSize. rewrite H. reflexivity.
  - intros c f H. unfold fileSize, size. rewrite H. split; [reflexivity | lia].
  - intros z unit n. subst unit n. unfold size_label, toFixed2.
    destruct (z <? 1024 * 1024); (split; [reflexivity |]);
      apply hundredths_nearest; lia.
  - intros z1 z2 unit. apply hundredths_mono.
Qed.

Lemma size_label_is_the_nearest_hundredth_witness :
  fileSize (mkComponent (mkInputs "" None "transcript" 32)
                        initial_display false false) = "" /\
  hundredths 1536 1024 <= hundredths 2048 1024.
Proof.
  split.
  - apply (proj1 size_label_is_the_nearest_hundredth
             (mkComponent (mkInputs "" None "transcript" 32)
                          initial_display false false) eq_refl).
  - apply (proj2 (proj2 (proj2 size_label_is_the_nearest_hundredth))
             1536 2048 1024); lia.
Defined.

(** The rounding carries past the change of unit: a file of 1048571 to
    1048575 bytes, still under 1024 * 1024, is labelled "1024.00 KB", every
    smaller file shows less than 1024.00 KB, and a file of exactly
    1024 * 1024 bytes is labelled "1.00 MB". *)
Theorem size_label_reaches_1024_KB :
  (forall z, 1048571 <= z < 1048576 -> size_label z = "1024.00 KB") /\
  (forall z, 0 <= z < 1048571 ->
     0 <= hundredths z 1024 < 102400 /\
     size_label z = (toFixed2 z 1024 ++ " KB")%string) /\
  size_label (1024 * 1024) = "1.00 MB".
Proof.
  split; [| split; [| reflexivity]].
  - intros z Hz.
    assert (Hlt : (z <? 1024 * 1024) = true) by (apply Z.ltb_lt; lia).
    assert (Hn : hundredths z 1024 = 102400).
    { pose proof (hundredths_nearest z 1024 ltac:(lia)). lia. }
    unfold size_label, toFixed2. rewrite Hlt, Hn. reflexivity.
  - intros z Hz.
    assert (Hlt : (z <? 1024 * 1024) = true) by (apply Z.ltb_lt; lia).
    pose proof (hundredths_nearest z 1024 ltac:(lia)).
    split; [lia |]. unfold size_label. rewrite Hlt. reflexivity.
Qed.

Lemma size_label_reaches_1024_KB_witness :
  size_label 1048573 = "1024.00 KB".
Proof.
  apply (proj1 size_label_reaches_1024_KB 1048573). lia.
Defined.

(** ** [downloadFile] leaves the page as it found it *)

Lemma filter_below (n : nat) (l : list nat) :
  Forall (fun x => (x < n)%nat) l ->
  filter (fun x => negb (Nat.eqb x n)) l = l.
Proof.
  induction 1 as [|x l Hx _ IH]; [reflexivity |].
  cbn [filter]. rewrite IH.
  assert (E : Nat.eqb x n = false) by (apply Nat.eqb_neq; lia).
  rewrite E. reflexivity.
Qed.

Lemma filter_urls_below (n : nat) (l : list (nat * Dom.blob)) :
  Forall (fun p => (fst p < n)%nat) l ->
  filter (fun p => negb (Nat.eqb (fst p) n)) l = l.
Proof.
  induction 1 as [|x l Hx _ IH]; [reflexivity |].
  cbn [filter]. rewrite IH.
  assert (E : Nat.eqb (fst x) n = false) by (apply Nat.eqb_neq; lia).
  rewrite E. reflexivity.
Qed.

(** In a browser whose identities were all drawn from its counter,
    [downloadFile] completes without throwing, starts exactly one download,
    of a text/plain blob holding the content, under the given name, and
    cleans up after itself: the children of the body and the live object
    URLs are afterwards what they were before. *)
Theorem download_cleans_up :
  forall content filename w,
    Dom.well_formed w ->
    exists w',
      Dom.downloadFile content filename w = Some w' /\
      Dom.children w' = Dom.children w /\
      Dom.objectURLs w' = Dom.objectURLs w /\
      Dom.saved w' =
        Dom.saved w ++ [(Dom.mkBlob [content] "text/plain", filename)] /\
      Dom.well_formed w'.
Proof.
  intros content filename [ch urls n sv] [Hch Hurls]. cbn in Hch, Hurls.
  assert (Hch' : Forall (fun x => (x < S n)%nat) ch).
  { eapply Forall_impl; [| exact Hch]. cbn. intros; lia. }
  unfold Dom.downloadFile, Dom.createObjectURL, Dom.createElement,
    Dom.appendChild, Dom.click, Dom.removeChild, Dom.revokeObjectURL.
  cbn [Dom.children Dom.objectURLs Dom.fresh Dom.saved Dom.resolve].
  rewrite Nat.eqb_refl.
  cbn [Dom.children Dom.objectURLs Dom.fresh Dom.saved].
  rewrite (filter_below (S n) ch Hch').
  rewrite existsb_app. cbn [existsb]. rewrite Nat.eqb_refl.
  cbn [orb]. rewrite orb_true_r.
  eexists. split; [reflexivity |].
  cbn [Dom.children Dom.objectURLs Dom.fresh Dom.saved].
  rewrite filter_app, (filter_below (S n) ch Hch').
  cbn [filter fst]. rewrite !Nat.eqb_refl. cbn [negb].
  rewrite app_nil_r, (filter_urls_below n urls Hurls).
  repeat split.
  - cbn. eapply Forall_impl; [| exact Hch]. cbn. intros; lia.
  - cbn. eapply Forall_impl; [| exact Hurls]. cbn. intros; lia.
Qed.

Lemma download_cleans_up_witness :
  exists w',
    Dom.downloadFile "Hello world" "interview.txt"
      (Dom.mkBrowser [0; 2]%nat [(1%nat, Dom.mkBlob ["x"] "image/png")]
                     3 []) = Some w' /\
    Dom.children w' = [0; 2]%nat /\
    Dom.objectURLs w' = [(1%nat, Dom.mkBlob ["x"] "image/png")] /\
    Dom.saved w' = [(Dom.mkBlob ["Hello world"] "text/plain",
                     "interview.txt")] /\
    Dom.well_formed w'.
Proof.
  apply (download_cleans_up "Hello world" "interview.txt"
           (Dom.mkBrowser [0; 2]%nat [(1%nat, Dom.mkBlob ["x"] "image/png")]
                          3 [])).
  split; cbn; repeat constructor.
Defined.

(** ** More on the name of the output file *)

Lemma before_first_dot_dotless s : contains_dot (before_first_dot s) = false.
Proof.
  induction s as [|c rest IH]; [reflexivity |].
  cbn [before_first_dot]. destruct (Ascii.eqb c "."%char) eqn:E;
    [reflexivity |].
  cbn [contains_dot]. rewrite E, IH. reflexivity.
Qed.

Lemma before_first_dot_is_prefix s :
  String.prefix (before_first_dot s) s = true.
Proof.
  induction s as [|c rest IH]; [reflexivity |].
  cbn [before_first_dot]. destruct (Ascii.eqb c "."%char); [reflexivity |].
  cbn [String.prefix]. destruct (ascii_dec c c); [exact IH | congruence].
Qed.

(** The stem never contains a '.', so the name of the output file has a
    single '.', that of its suffix; the stem is a prefix of the display
    name; and it is empty exactly when the display name is empty or begins
    with '.'.  A run on a file so named when the name is read hands the
    download a file named just ".txt" or ".srt". *)
Theorem stem_is_a_dotless_prefix :
  (forall display_name,
     contains_dot (stem display_name) = false /\
     String.prefix (stem display_name) display_name = true /\
     (stem display_name = "" <->
      display_name = "" \/
      exists rest, display_name = String "."%char rest)) /\
  (forall i seen net d content filename,
     In (Download content filename)
        (issued (Live.processAudio i seen net d)) ->
     (forall selected,
        audioFile (seen (Live.at_download seen)) = Some selected ->
        name selected = "" \/
        exists rest, name selected = String "."%char rest) ->
     filename = ".txt" \/ filename = ".srt").
Proof.
  assert (Hstem : forall display_name,
     contains_dot (stem display_name) = false /\
     String.prefix (stem display_name) display_name = true /\
     (stem display_name = "" <->
      display_name = "" \/
      exists rest, display_name = String "."%char rest)).
  { intros display_name. rewrite stem_before_first_dot.
    split; [apply before_first_dot_dotless |].
    split; [apply before_first_dot_is_prefix |].
    destruct display_name as [|c rest]; cbn [before_first_dot].
    - split; [intros _; left; reflexivity | reflexivity].
    - destruct (Ascii.eqb c "."%char) eqn:E.
      + apply Ascii.eqb_eq in E. subst c.
        split; [intros _; right; exists rest; reflexivity | reflexivity].
      + split; [discriminate |].
        intros [H | [rest' H]]; [discriminate |].
        injection H as -> _. discriminate. }
  split; [exact Hstem |].
  intros i seen net d content filename Hin Hname.
  destruct (live_run_downloads i seen net d content filename Hin)
    as [selected [Hsel ->]].
  destruct (Hstem (name selected)) as [_ [_ [_ Hempty]]].
  rewrite (Hempty (Hname selected Hsel)). unfold suffix.
  destruct (String.eqb (outputType (seen AtFormat)) "subtitles");
    [right | left]; reflexivity.
Qed.

Lemma stem_is_a_dotless_prefix_witness :
  filter is_download
    (issued (Live.processAudio
               (named_inputs ".hidden.mp3" "transcript")
               (still (named_inputs ".hidden.mp3" "transcript"))
               (sample_network [answer "completed" "Hello"])
               initial_display)) = [Download "Hello" ".txt"] /\
  (".txt" = ".txt" \/ ".txt" = ".srt").
Proof.
  split; [reflexivity |].
  apply (proj2 stem_is_a_dotless_prefix
           (named_inputs ".hidden.mp3" "transcript")
           (still (named_inputs ".hidden.mp3" "transcript"))
           (sample_network [answer "completed" "Hello"])
           initial_display "Hello" ".txt").
  - vm_compute. do 5 right. left. reflexivity.
  - intros selected H. injection H as <-. right. eexists. reflexivity.
Defined.

(** ** A file cleared while the run awaits *)

(** When the job completes but the user has cleared the file by the time
    the run reads its name, the run fails on that read: nothing is
    downloaded, no success message is shown, the error shown is the
    message of the TypeError, the estimate stays at 90 and the flag is
    clear.  For a transcript that happens right after the last status
    query; for subtitles the caption call has been issued and answered
    first. *)
Theorem cleared_file_fails_a_completed_run :
  forall i file seen net u t pre rest v d,
    falsy (apiKey i) = false ->
    audioFile i = Some file ->
    uploadResponse net = Response true (Json.Value u) ->
    transcriptResponse net = Response true (Json.Value t) ->
    pollingResponses net = pre ++ Response true (Json.Value v) :: rest ->
    forallb keeps_polling pre = true ->
    Json.status v = "completed" ->
    audioFile (seen (Live.at_download seen)) = None ->
    (outputType (seen AtFormat) = "subtitles" ->
     exists body, srtResponse net = Response true body) ->
    let R := Live.processAudio i seen net d in
    outcome R = Normal tt /\
    count is_download (issued R) = O /\
    issued R =
      live_calls_until_polled i file seen u t pre ++
      (if String.eqb (outputType (seen AtFormat)) "subtitles"
       then [Srt (apiKey (seen AtFormat)) (Json.id t)
                 (characterLength (seen AtFormat))]
       else []) /\
    errorMessage (shown R) = message_of null_name_error /\
    successMessage (shown R) = "" /\
    processingProgress (shown R) = 90 /\
    isLoading (shown R) = false.
Proof.
  intros i file seen net u t pre rest v d Hk Hf HU HT HP Hpre Hc Hnone Hsrt R.
  assert (Hfinal : in_progress (Json.status v) = false)
    by (rewrite Hc; reflexivity).
  destruct (live_processAudio_polled i file seen net u t pre rest v
              Hk Hf HU HT HP Hpre Hfinal d) as [E [Hl [He Hs]]].
  assert (H1 : String.eqb (Json.status v) "completed" = true)
    by (rewrite Hc; reflexivity).
  assert (Hcount : forall tl,
             count is_download
               (live_calls_until_polled i file seen u t pre ++ tl)
             = count is_download tl).
  { intros tl. rewrite count_app. unfold live_calls_until_polled.
    rewrite !count_cons, count_is_download_live_polling_trace.
    reflexivity. }
  subst R. rewrite E. unfold Live.at_download in Hnone.
  destruct (String.eqb (outputType (seen AtFormat)) "subtitles") eqn:Ho.
  - destruct (Hsrt (proj1 (String.eqb_eq _ _) Ho)) as [body HS].
    rewrite (live_format_stage_subtitles_failed seen (Json.id t) net
               (mkLocals (Some v) (Json.status v)
                  (Z.of_nat (List.length pre) + 1))
               null_name_error _ H1 Ho)
      by (rewrite HS; split; [exact Hnone | reflexivity]).
    cbn [settle outcome shown issued fst snd].
    rewrite Hcount. repeat split. exact Hs.
  - rewrite (live_format_stage_transcript_cleared seen (Json.id t) net
               (mkLocals (Some v) (Json.status v)
                  (Z.of_nat (List.length pre) + 1))
               v _ H1 Ho eq_refl Hnone).
    cbn [settle outcome shown issued fst snd].
    rewrite Hcount. repeat split. exact Hs.
Qed.

Lemma cleared_file_fails_a_completed_run_witness :
  count is_download
    (issued (Live.processAudio sample_inputs cleared_while_polling
               (sample_network [answer "completed" "Hello world"])
               initial_display)) = O /\
  processingProgress
    (shown (Live.processAudio sample_inputs cleared_while_polling
              (sample_network [answer "completed" "Hello world"])
              initial_display)) = 90.
Proof.
  pose proof (cleared_file_fails_a_completed_run
                sample_inputs sample_file cleared_while_polling
                (sample_network [answer "completed" "Hello world"])
                (Json.mkUpload "https://cdn.example/upload/1")
                (Json.mkTranscript "job-1" "queued" "")
                [] []
                (Json.mkTranscript "job-1" "completed" "Hello world")
                initial_display
                eq_refl eq_refl eq_refl eq_refl eq_refl eq_refl eq_refl
                eq_refl) as H.
  cbv zeta in H.
  destruct H as [_ [H1 [_ [_ [_ [H2 _]]]]]]; [discriminate |].
  split; [exact H1 | exact H2].
Defined.

(** ** The output of a completed run, with the refs as it finds them *)

(** When the job completes and the run then finds an output type other
    than "subtitles" and a file still selected, the
    downloaded body is the [text] of the completed status payload, the file
    name is the stem of the display name of that file followed by ".txt",
    and the download is the only effect after the last status query: no
    further call is issued.  A job that completes on its first poll with
    text "Hello world" for the file "interview.wav" downloads
    ("Hello world", "interview.txt"). *)
Theorem transcript_output_is_payload_text :
  (forall i file seen net u t pre rest v selected d,
     falsy (apiKey i) = false ->
     audioFile i = Some file ->
     uploadResponse net = Response true (Json.Value u) ->
     transcriptResponse net = Response true (Json.Value t) ->
     pollingResponses net = pre ++ Response true (Json.Value v) :: rest ->
     forallb keeps_polling pre = true ->
     Json.status v = "completed" ->
     outputType (seen AtFormat) <> "subtitles" ->
     audioFile (seen AtFormat) = Some selected ->
     let R := Live.processAudio i seen net d in
     outcome R = Normal tt /\
     issued R =
       live_calls_until_polled i file seen u t pre ++
       [Download (Json.text v) (stem (name selected) ++ ".txt")%string] /\
     successMessage (shown R) =
       ("Your " ++ outputType (seen AtFormat) ++
        " has been successfully processed and downloaded!")%string /\
     processingProgress (shown R) = 100 /\
     processingStage (shown R) = "Complete!" /\
     isLoading (shown R) = false) /\
  issued (Live.processAudio sample_inputs (still sample_inputs)
            (sample_network [answer "completed" "Hello world"])
            initial_display) =
  [StorageSet "assemblyai_api_key" "secret";
   Upload "secret" sample_file;
   Transcribe "secret" "https://cdn.example/upload/1" "en_us" "slam-1";
   Sleep 1000; Status "secret" "job-1";
   Download "Hello world" "interview.txt"].
Proof.
  split; [| reflexivity].
  intros i file seen net u t pre rest v selected d
         Hk Hf HU HT HP Hpre Hc Ho Hs R.
  assert (Hfinal : in_progress (Json.status v) = false)
    by (rewrite Hc; reflexivity).
  destruct (live_processAudio_polled i file seen net u t pre rest v
              Hk Hf HU HT HP Hpre Hfinal d) as [E _].
  subst R. rewrite E.
  rewrite (live_format_stage_transcript seen (Json.id t) net _ v selected)
    by (cbn [status result];
        first [rewrite Hc; reflexivity | apply String.eqb_neq; exact Ho
              | reflexivity | exact Hs]).
  cbn [settle outcome shown issued fst snd]. repeat split.
Qed.

Lemma transcript_output_is_payload_text_witness :
  issued (Live.processAudio sample_inputs renamed_while_polling
            (sample_network [answer "processing" "";
                             answer "completed" "Hello world"])
            initial_display) =
  [StorageSet "assemblyai_api_key" "secret";
   Upload "secret" sample_file;
   Transcribe "secret" "https://cdn.example/upload/1" "en_us" "slam-1";
   Sleep 1000; Status "secret" "job-1";
   Sleep 1000; Status "secret" "job-1";
   Download "Hello world" "notes.txt"].
Proof.
  refine (proj1 (proj2 (proj1 transcript_output_is_payload_text
           sample_inputs sample_file renamed_while_polling
           (sample_network [answer "processing" "";
                            answer "completed" "Hello world"])
           (Json.mkUpload "https://cdn.example/upload/1")
           (Json.mkTranscript "job-1" "queued" "")
           [answer "processing" ""] []
           (Json.mkTranscript "job-1" "completed" "Hello world")
           (mkFile "notes.v2.mp3" "audio/mpeg" [])
           initial_display
           eq_refl eq_refl eq_refl eq_refl eq_refl eq_refl eq_refl
           _ eq_refl))).
  discriminate.
Defined.

(** When the job completes and the run then finds the output type
    "subtitles", it issues exactly one further call, the
    caption query, carrying the key and the caption length as the refs hold
    them at that moment, right after the last status query.  On a
    successful response, if a file is still selected when the body has been
    read, the body is downloaded unchanged under the stem of that file's
    display name followed by ".srt"; on a non-success response the run
    fails with "Failed to get SRT file", on a rejected request with the
    message of the rejection, and in both cases nothing is downloaded.
    With caption length 32 and the scenario's caption text, the download is
    exactly that text under "interview.srt". *)
Theorem subtitles_output_is_caption_body :
  (forall i file seen net u t pre rest v d,
     falsy (apiKey i) = false ->
     audioFile i = Some file ->
     uploadResponse net = Response true (Json.Value u) ->
     transcriptResponse net = Response true (Json.Value t) ->
     pollingResponses net = pre ++ Response true (Json.Value v) :: rest ->
     forallb keeps_polling pre = true ->
     Json.status v = "completed" ->
     outputType (seen AtFormat) = "subtitles" ->
     let R := Live.processAudio i seen net d in
     let calls :=
       live_calls_until_polled i file seen u t pre ++
       [Srt (apiKey (seen AtFormat)) (Json.id t)
            (characterLength (seen AtFormat))] in
     outcome R = Normal tt /\
     isLoading (shown R) = false /\
     count is_srt (issued R) = 1%nat /\
     match srtResponse net with
     | Response true body =>
         forall selected,
           audioFile (seen AtCaption) = Some selected ->
           issued R =
             calls ++
             [Download body (stem (name selected) ++ ".srt")%string] /\
           successMessage (shown R) =
             ("Your " ++ outputType (seen AtCaption) ++
              " has been successfully processed and downloaded!")%string /\
           processingProgress (shown R) = 100 /\
           processingStage (shown R) = "Complete!"
     | Response false _ =>
         issued R = calls /\
         errorMessage (shown R) = "Failed to get SRT file" /\
         successMessage (shown R) = ""
     | Rejected e =>
         issued R = calls /\
         errorMessage (shown R) = message_of e /\
         successMessage (shown R) = ""
     end) /\
  issued (Live.processAudio subtitles_inputs (still subtitles_inputs)
            (subtitles_network (Response true sample_srt)) initial_display) =
  [StorageSet "assemblyai_api_key" "secret";
   Upload "secret" sample_file;
   Transcribe "secret" "https://cdn.example/upload/1" "en_us" "slam-1";
   Sleep 1000; Status "secret" "job-1";
   Srt "secret" "job-1" 32;
   Download sample_srt "interview.srt"].
Proof.
  split; [| reflexivity].
  intros i file seen net u t pre rest v d Hk Hf HU HT HP Hpre Hc Ho R calls.
  assert (Hfinal : in_progress (Json.status v) = false)
    by (rewrite Hc; reflexivity).
  destruct (live_processAudio_polled i file seen net u t pre rest v
              Hk Hf HU HT HP Hpre Hfinal d) as [E [Hl [He Hs]]].
  assert (Hcount : forall tl,
             count is_srt (live_calls_until_polled i file seen u t pre ++ tl)
             = count is_srt tl).
  { intros tl. rewrite count_app. unfold live_calls_until_polled.
    rewrite !count_cons, count_is_srt_live_polling_trace. reflexivity. }
  assert (H1 : String.eqb (Json.status v) "completed" = true)
    by (rewrite Hc; reflexivity).
  assert (H2 : String.eqb (outputType (seen AtFormat)) "subtitles" = true)
    by (rewrite Ho; reflexivity).
  subst R calls. rewrite E.
  destruct (srtResponse net) as [[|] body|e] eqn:HS.
  - destruct (audioFile (seen AtCaption)) as [selected|] eqn:Hsel.
    + rewrite (live_format_stage_subtitles seen (Json.id t) net
                 (mkLocals (Some v) (Json.status v)
                    (Z.of_nat (List.length pre) + 1)) body selected _ H1 H2 HS Hsel).
      cbn [settle outcome shown issued fst snd].
      rewrite Hcount. split; [reflexivity |]. split; [reflexivity |].
      split; [reflexivity |].
      intros selected' Hsel'. injection Hsel' as <-.
      rewrite <- app_assoc. repeat split.
    + rewrite (live_format_stage_subtitles_failed seen (Json.id t) net
                 (mkLocals (Some v) (Json.status v)
                    (Z.of_nat (List.length pre) + 1)) null_name_error _ H1 H2)
        by (rewrite HS; split; [exact Hsel | reflexivity]).
      cbn [settle outcome shown issued fst snd].
      rewrite Hcount. split; [reflexivity |]. split; [reflexivity |].
      split; [reflexivity |]. intros selected' Hsel'. discriminate.
  - rewrite (live_format_stage_subtitles_failed seen (Json.id t) net
               (mkLocals (Some v) (Json.status v)
                    (Z.of_nat (List.length pre) + 1)) (ErrorObj "Failed to get SRT file") _ H1 H2)
      by (rewrite HS; reflexivity).
    cbn [settle outcome shown issued fst snd].
    rewrite Hcount. repeat split. exact Hs.
  - rewrite (live_format_stage_subtitles_failed seen (Json.id t) net
               (mkLocals (Some v) (Json.status v)
                    (Z.of_nat (List.length pre) + 1)) e _ H1 H2)
      by (rewrite HS; reflexivity).
    cbn [settle outcome shown issued fst snd].
    rewrite Hcount. repeat split. exact Hs.
Qed.

Lemma subtitles_output_is_caption_body_witness :
  issued (Live.processAudio subtitles_inputs length_emptied_while_polling
            (subtitles_network (Rejected NotAnError)) initial_display) =
  [StorageSet "assemblyai_api_key" "secret";
   Upload "secret" sample_file;
   Transcribe "secret" "https://cdn.example/upload/1" "en_us" "slam-1";
   Sleep 1000; Status "secret" "job-1";
   Srt "secret" "job-1" (Rendered "")] /\
  errorMessage
    (shown (Live.processAudio subtitles_inputs length_emptied_while_polling
              (subtitles_network (Rejected NotAnError)) initial_display)) =
  "An unknown error occurred".
Proof.
  pose proof (proj1 subtitles_output_is_caption_body
                subtitles_inputs sample_file length_emptied_while_polling
                (subtitles_network (Rejected NotAnError))
                (Json.mkUpload "https://cdn.example/upload/1")
                (Json.mkTranscript "job-1" "queued" "")
                [] []
                (Json.mkTranscript "job-1" "completed" "Hello")
                initial_display
                eq_refl eq_refl eq_refl eq_refl eq_refl eq_refl eq_refl
                eq_refl) as H.
  cbv zeta in H. destruct H as [_ [_ [_ [H1 [H2 _]]]]].
  split; [exact H1 | exact H2].
Defined.
